(** * GhasedakLib: the Ghasedak SMS client, embedded and verified

    The development follows the three source files:
    - [status.py]      the table [Statuses];
    - [exceptions.py]  the class [ApiException] and its [__str__];
    - [ghasedak.py]    the enumerations, [makeRequest] and the four public
                       operations [sendMessage], [sendOtpVerification],
                       [getSMSStatus] and [getAccountInfo].

    Python values are embedded as the type [value]; a call of a Python
    function is a computation in the monad [M], which records what the call
    prints and what it sends to the HTTP library, and ends either with a
    returned value or with a raised exception. *)

From Stdlib Require Import Ascii String.
From stdpp Require Import gmap strings list fin_maps pretty.

Set Warnings "-register-all".

Open Scope string_scope.
Open Scope list_scope.
Open Scope Z_scope.

(** ** Python values *)

(** The values that reach the library: arguments given by the caller and
    whatever [response.json()] hands back.  [VNone], [VBool], [VInt] and
    [VStr] are [None], [bool], [int] and [str]; [VList] is a list and [VDict]
    a dict with string keys, kept in insertion order.  A string is a sequence
    of characters, one [ascii] each (code points below 256).  Floating-point
    numbers are outside the model. *)
Inductive value : Type :=
| VNone
| VBool (b : bool)
| VInt (n : Z)
| VStr (s : string)
| VList (l : list value)
| VDict (d : list (string * value)).

(** An instance of the class [ApiException] of [exceptions.py]: its
    [__init__] stores the two arguments in [self.code] and [self.message]. *)
Record ApiException : Type := mkApiException {
  code : value;
  message : value
}.

(** The exceptions that can travel through the library.  The three classes of
    [requests.exceptions] named in the [except] clauses of [makeRequest] carry
    the text that [str] gives for them; [ConnectionError] and [HTTPError]
    stand for the class and its subclasses, [RequestException] for every other
    subclass of it (a time-out, for one). *)
Inductive exn : Type :=
| ConnectionError (msg : string)
| HTTPError (msg : string)
| RequestException (msg : string)
| ApiError (e : ApiException)
| JSONDecodeError
| KeyError (key : value)
| IndexError
| TypeError
| UnboundLocalError
| OtherError (name : string).

Inductive result (A : Type) : Type :=
| Ok (a : A)
| Raise (e : exn).
Arguments Ok {A} a.
Arguments Raise {A} e.

(** ** The HTTP library, as the client sees it *)

Record Request : Type := mkRequest {
  rq_method : string;
  rq_url : string;
  rq_data : gmap string value;
  rq_headers : gmap string string
}.

(** A response of [requests]: the status line, the final URL and what
    [response.json()] gives ([None] when the body is not JSON). *)
Record Response : Type := mkResponse {
  status_code : Z;
  reason : string;
  resp_url : string;
  json : option value
}.

(** ** Effects *)

Inductive event : Type :=
| Sent (rq : Request)
| Printed (line : string).

(** A computation: the events it produced, in order, and how it ended. *)
Record M (A : Type) : Type := mkM {
  trace : list event;
  outcome : result A
}.
Arguments mkM {A} trace outcome.
Arguments trace {A} m.
Arguments outcome {A} m.

#[global] Instance M_ret : MRet M := λ A a, mkM [] (Ok a).

#[global] Instance M_bind : MBind M := λ A B f m,
  match outcome m with
  | Ok a => mkM (trace m ++ trace (f a)) (outcome (f a))
  | Raise e => mkM (trace m) (Raise e)
  end.

Definition raise {A : Type} (e : exn) : M A := mkM [] (Raise e).

Definition lift {A : Type} (r : result A) : M A := mkM [] r.

Definition print (line : string) : M unit := mkM [Printed line] (Ok tt).

(** [try: body except ...: handler].  The handler answers [None] for an
    exception that no [except] clause matches, which then travels on. *)
Definition try_except {A : Type} (body : M A) (handler : exn → option (M A)) : M A :=
  match outcome body with
  | Ok a => body
  | Raise e =>
      match handler e with
      | Some h => mkM (trace body ++ trace h) (outcome h)
      | None => body
      end
  end.

(** What a statement inside a function does to the function: it ends it with
    a value ([return v]) or leaves a binding for the statements after it. *)
Inductive flow (A : Type) : Type :=
| Return (v : value)
| Next (a : A).
Arguments Return {A} v.
Arguments Next {A} a.

(** ** Built-ins of Python used by the library *)

Definition quote' : ascii := ascii_of_N 39.
Definition dquote : ascii := ascii_of_N 34.
Definition backslash : ascii := ascii_of_N 92.

Definition hex_digit (n : N) : ascii :=
  default "0"%char (String.get (N.to_nat n) "0123456789abcdef").

Definition hex_escape (c : ascii) : string :=
  let n := N_of_ascii c in
  String backslash (String "x" (String (hex_digit (n / 16)) (String (hex_digit (n mod 16)) ""))).

Fixpoint contains_char (c : ascii) (s : string) : bool :=
  match s with
  | EmptyString => false
  | String c' s' => if Ascii.eqb c c' then true else contains_char c s'
  end.

(** One character of [repr] of a [str], delimited by [q]. *)
Definition repr_char (q : ascii) (c : ascii) : string :=
  let n := N_of_ascii c in
  if (Ascii.eqb c q || Ascii.eqb c backslash)%bool then String backslash (String c "")
  else if (n =? 9)%N then String backslash "t"
  else if (n =? 10)%N then String backslash "n"
  else if (n =? 13)%N then String backslash "r"
  else if ((n <? 32) || (n =? 127))%N%bool then hex_escape c
  else if (n <? 127)%N then String c ""
  else if ((n <=? 160) || (n =? 173))%N%bool then hex_escape c
  else String c "".

Fixpoint repr_chars (q : ascii) (s : string) : string :=
  match s with
  | EmptyString => ""
  | String c s' => repr_char q c +:+ repr_chars q s'
  end.

Definition repr_str (s : string) : string :=
  let q := if (contains_char quote' s && negb (contains_char dquote s))%bool
           then dquote else quote' in
  String q (repr_chars q s) +:+ String q "".

Definition join (sep : string) (l : list string) : string := String.concat sep l.

(** [repr(v)]. *)
Fixpoint repr (v : value) : string :=
  match v with
  | VNone => "None"
  | VBool true => "True"
  | VBool false => "False"
  | VInt n => pretty n
  | VStr s => repr_str s
  | VList l => "[" +:+ join ", " (map repr l) +:+ "]"
  | VDict d =>
      "{" +:+ join ", " (map (λ kv, repr_str (fst kv) +:+ ": " +:+ repr (snd kv)) d) +:+ "}"
  end.

(** [str(v)], which is also what an f-string puts for [{v}]. *)
Definition str (v : value) : string :=
  match v with
  | VStr s => s
  | _ => repr v
  end.

(** A [bool] is an [int] in Python. *)
Definition Z_of_bool (b : bool) : Z := if b then 1 else 0.

(** [l[i]] on a sequence of [len] elements: a negative index counts from the
    end; outside the sequence [IndexError]. *)
Definition index {A : Type} (l : list A) (i : Z) : result A :=
  let j := if i <? 0 then i + Z.of_nat (length l) else i in
  if j <? 0 then Raise IndexError
  else match l !! Z.to_nat j with
       | Some a => Ok a
       | None => Raise IndexError
       end.

Fixpoint dict_get (k : string) (d : list (string * value)) : option value :=
  match d with
  | [] => None
  | (k', v) :: d' => if String.eqb k k' then Some v else dict_get k d'
  end.

(** [d[k] = v] on a dict: an existing key keeps its place. *)
Fixpoint dict_set (k : string) (v : value) (d : list (string * value)) : list (string * value) :=
  match d with
  | [] => [(k, v)]
  | (k', v') :: d' => if String.eqb k k' then (k, v) :: d' else (k', v') :: dict_set k v d'
  end.

Definition chars (s : string) : list value :=
  map (λ c, VStr (String c "")) (list_ascii_of_string s).

(** [v[k]] for a string [k].  Only a dict can be indexed by a string. *)
Definition getitem_str (v : value) (k : string) : result value :=
  match v with
  | VDict d =>
      match dict_get k d with
      | Some x => Ok x
      | None => Raise (KeyError (VStr k))
      end
  | _ => Raise TypeError
  end.

(** [v[i]] for an integer [i].  The keys of a dict of the model are strings,
    so no dict has the key [i]. *)
Definition getitem_int (v : value) (i : Z) : result value :=
  match v with
  | VList l => index l i
  | VStr s => index (chars s) i
  | VDict _ => Raise (KeyError (VInt i))
  | _ => Raise TypeError
  end.

(** [v[k] = x] for a string [k]; the result is [v] after the assignment. *)
Definition setitem_str (v : value) (k : string) (x : value) : result value :=
  match v with
  | VDict d => Ok (VDict (dict_set k x d))
  | _ => Raise TypeError
  end.

(** The elements that [for item in v] visits. *)
Definition iterate (v : value) : result (list value) :=
  match v with
  | VList l => Ok l
  | VDict d => Ok (map (λ kv, VStr (fst kv)) d)
  | VStr s => Ok (chars s)
  | _ => Raise TypeError
  end.

(** [v == n] for an integer literal [n]. *)
Definition eq_int (v : value) (n : Z) : bool :=
  match v with
  | VInt m => m =? n
  | VBool b => Z_of_bool b =? n
  | _ => false
  end.

(** [n <= v] and [v < n] for an integer literal [n]: an [int] or a [bool] is
    compared, anything else is a [TypeError]. *)
Definition int_le (n : Z) (v : value) : result bool :=
  match v with
  | VInt m => Ok (n <=? m)
  | VBool b => Ok (n <=? Z_of_bool b)
  | _ => Raise TypeError
  end.

Definition lt_int (v : value) (n : Z) : result bool :=
  match v with
  | VInt m => Ok (m <? n)
  | VBool b => Ok (Z_of_bool b <? n)
  | _ => Raise TypeError
  end.

Definition is_not_None (v : value) : bool :=
  match v with
  | VNone => false
  | _ => true
  end.

(** ** status.py *)

Definition Statuses : gmap Z string :=
  list_to_map
    [ (0, "Not received to the server");
      (1, "Received to the phone");
      (2, "Not received to the phone");
      (3, "Received to the contact");
      (4, "Not received to the contact");
      (5, "Receptor is in Blacklist");
      (6, "Given Id is wrong") ].

(** [Statuses.get(key)]: [None] for a key that is absent; [True] and [False]
    hash and compare as 1 and 0; a list or a dict cannot be hashed. *)
Definition Statuses_get (key : value) : result value :=
  match key with
  | VInt n => Ok (from_option VStr VNone (Statuses !! n))
  | VBool b => Ok (from_option VStr VNone (Statuses !! Z_of_bool b))
  | VList _ | VDict _ => Raise TypeError
  | _ => Ok VNone
  end.

(** ** exceptions.py *)

(** [ApiException.__str__]: the method has one [if] with a [return] and no
    [else], so it falls off its end, returning [None], when the test fails. *)
Definition ApiException_str (self : ApiException) : result (option string) :=
  match int_le 400 (code self) with
  | Raise e => Raise e
  | Ok false => Ok None
  | Ok true =>
      match lt_int (code self) 500 with
      | Raise e => Raise e
      | Ok false => Ok None
      | Ok true => Ok (Some (str (code self) +:+ " Client Error: " +:+ str (message self)))
      end
  end.

(** [str(e)] for an [ApiException] [e], which is what an f-string calls for
    [{e}]: a [__str__] that does not return a string is a [TypeError]. *)
Definition str_ApiException (e : ApiException) : result string :=
  match ApiException_str e with
  | Raise e => Raise e
  | Ok None => Raise TypeError
  | Ok (Some s) => Ok s
  end.

(** ** ghasedak.py *)

Inductive MessageType : Type := TEXT | VOICE.

Inductive MessageIDType : Type := MESSAGE_ID | CHECK_ID.

Definition MessageType_value (t : MessageType) : value :=
  match t with
  | TEXT => VInt 1
  | VOICE => VInt 2
  end.

Definition MessageIDType_value (t : MessageIDType) : value :=
  match t with
  | MESSAGE_ID => VInt 1
  | CHECK_ID => VInt 2
  end.

Record Ghasedak : Type := mkGhasedak {
  apikey : string;
  url : string
}.

(** [Ghasedak.__init__]. *)
Definition init (apikey : string) : Ghasedak :=
  mkGhasedak apikey "https://api.ghasedak.io/v2".

(** [Response.raise_for_status] of the [requests] library: an [HTTPError] for
    a status from 400 to 599, nothing otherwise. *)
Definition raise_for_status (response : Response) : result unit :=
  let code := status_code response in
  if (400 <=? code) && (code <? 500) then
    Raise (HTTPError (pretty code +:+ " Client Error: " +:+ reason response
                        +:+ " for url: " +:+ resp_url response))
  else if (500 <=? code) && (code <? 600) then
    Raise (HTTPError (pretty code +:+ " Server Error: " +:+ reason response
                        +:+ " for url: " +:+ resp_url response))
  else Ok tt.

(** [response.json()]. *)
Definition response_json (response : Response) : result value :=
  match json response with
  | Some v => Ok v
  | None => Raise JSONDecodeError
  end.

Section Client.

(** [requests.request], the transport: what it answers to a request. *)
Variable request : Request → result Response.

Variable self : Ghasedak.

Definition headers : gmap string string :=
  <["apikey" := apikey self]>
    (<["charset" := "utf-8"]>
       (<["Content-Type" := "application/x-www-form-urlencoded"]>
          (<["Accept" := "application/json"]> ∅))).

(** The [except] clauses of [makeRequest], tried in their order on an
    exception raised in the [try] block.  [response] is the local variable of
    that name at that moment: [None] while it is unbound. *)
Definition makeRequest_except (e : exn) (response : option Response)
  : M (flow (option Response)) :=
  match e with
  | ConnectionError msg =>
      print ("[Requests] Connection ERROR: " +:+ msg);;
      mret (Return VNone)
  | HTTPError msg =>
      print ("[Requests] HTTP ERROR: " +:+ msg);;
      mret (Next response)
  | RequestException msg =>
      print ("[Requests] Request Exception: " +:+ msg);;
      mret (Return VNone)
  | _ => raise e
  end.

(** The statements of [makeRequest] after the [try] statement.  The
    expression [res_json['result']['code']] is evaluated for the test and
    again for the exception; it has no effect, so it is bound once. *)
Definition makeRequest_rest (response : option Response) : M value :=
  match response with
  | None => raise UnboundLocalError
  | Some response =>
      res_json ← lift (response_json response);
      result ← lift (getitem_str res_json "result");
      code ← lift (getitem_str result "code");
      if eq_int code 200 then lift (getitem_str res_json "items")
      else
        message ← lift (getitem_str result "message");
        raise (ApiError (mkApiException code message))
  end.

Definition makeRequest (endpoint : string) (data : option (gmap string value))
    (method : string) : M value :=
  let rq := mkRequest method (url self +:+ endpoint) (default ∅ data) headers in
  r ← (mkM [Sent rq] (Ok tt);;
       match request rq with
       | Raise e => makeRequest_except e None
       | Ok response =>
           match raise_for_status response with
           | Raise e => makeRequest_except e (Some response)
           | Ok _ => mret (Next (Some response))
           end
       end);
  match r with
  | Return v => mret v
  | Next response => makeRequest_rest response
  end.

(** [except ApiException as api_error: print(f"[Ghasedak] {api_error}")]
    followed by [return sentinel], the handler of all four operations. *)
Definition except_ApiException {A : Type} (sentinel : value) (e : exn)
  : option (M (flow A)) :=
  match e with
  | ApiError api_error =>
      Some (text ← lift (str_ApiException api_error);
            print ("[Ghasedak] " +:+ text);;
            mret (Return sentinel))
  | _ => None
  end.

Definition sendMessage_data (message receptor linenumber senddate checkid : value)
  : gmap string value :=
  let data := ∅ in
  let data := <["message" := VStr (str message)]> data in
  let data := <["receptor" := VStr (str receptor)]> data in
  let data := if is_not_None linenumber
              then <["linenumber" := VStr (str linenumber)]> data else data in
  let data := if is_not_None senddate
              then <["senddate" := VStr (str senddate)]> data else data in
  let data := if is_not_None checkid
              then <["checkid" := VStr (str checkid)]> data else data in
  data.

(** [linenumber], [senddate] and [checkid] default to [VNone]. *)
Definition sendMessage (message receptor linenumber senddate checkid : value) : M value :=
  let data := sendMessage_data message receptor linenumber senddate checkid in
  r ← try_except
        (res ← makeRequest "/sms/send/simple" (Some data) "POST"; mret (Next res))
        (except_ApiException (VBool false));
  match r with
  | Return v => mret v
  | Next res => lift (getitem_int res 1)
  end.

(** [params] is the dict of the extra keyword arguments, in the order of the
    call. *)
Definition sendOtpVerification_data (otp receptor template : value) (type : MessageType)
    (checkid : value) (params : list (string * value)) : gmap string value :=
  let data := ∅ in
  let data := <["receptor" := VStr (str receptor)]> data in
  let data := <["template" := VStr (str template)]> data in
  let data := <["type" := MessageType_value type]> data in
  let data := if is_not_None checkid
              then <["checkid" := VStr (str checkid)]> data else data in
  let data := foldl (λ data pv, <[fst pv := VStr (str (snd pv))]> data) data params in
  let data := <["param1" := VStr (str otp)]> data in
  data.

(** [type] defaults to [TEXT] and [checkid] to [VNone]. *)
Definition sendOtpVerification (otp receptor template : value) (type : MessageType)
    (checkid : value) (params : list (string * value)) : M value :=
  let data := sendOtpVerification_data otp receptor template type checkid params in
  r ← try_except
        (res ← makeRequest "/verification/send/simple" (Some data) "POST"; mret (Next res))
        (except_ApiException (VBool false));
  match r with
  | Return v => mret v
  | Next res => mret res
  end.

Definition getSMSStatus_data (id : value) (type : MessageIDType) : gmap string value :=
  let data := ∅ in
  let data := <["id" := VStr (str id)]> data in
  let data := <["type" := MessageIDType_value type]> data in
  data.

(** The body of the loop of [getSMSStatus] on one [item]; the result is the
    item after the assignment. *)
Definition translate_status (item : value) : result value :=
  match getitem_str item "status" with
  | Raise e => Raise e
  | Ok status =>
      match Statuses_get status with
      | Raise e => Raise e
      | Ok text => setitem_str item "status" text
      end
  end.

Fixpoint for_each (body : value → result value) (items : list value)
  : result (list value) :=
  match items with
  | [] => Ok []
  | item :: items' =>
      match body item with
      | Raise e => Raise e
      | Ok item' =>
          match for_each body items' with
          | Raise e => Raise e
          | Ok rest => Ok (item' :: rest)
          end
      end
  end.

(** [for item in res: item['status'] = Statuses.get(item['status'])].  The
    loop changes the items in place, and the items of a list are the objects
    the list holds, so afterwards the list holds the changed items; the keys
    of a dict and the characters of a string are strings, on which the body
    raises. *)
Definition translate_statuses (res : value) : result value :=
  match iterate res with
  | Raise e => Raise e
  | Ok items =>
      match for_each translate_status items with
      | Raise e => Raise e
      | Ok items' =>
          match res with
          | VList _ => Ok (VList items')
          | _ => Ok res
          end
      end
  end.

(** [type] defaults to [CHECK_ID]. *)
Definition getSMSStatus (id : value) (type : MessageIDType) : M value :=
  let data := getSMSStatus_data id type in
  r ← try_except
        (res ← makeRequest "/sms/status" (Some data) "GET"; mret (Next res))
        (except_ApiException (VBool false));
  match r with
  | Return v => mret v
  | Next res => lift (translate_statuses res)
  end.

Definition getAccountInfo : M value :=
  r ← try_except
        (res ← makeRequest "/account/info" None "POST"; mret (Next res))
        (except_ApiException VNone);
  match r with
  | Return v => mret v
  | Next res => mret res
  end.

End Client.

Arguments makeRequest_rest : simpl never.
Arguments makeRequest : simpl never.

(** ** Vocabulary of the properties *)

(** The requests handed to [requests.request] during a computation. *)
Definition sent (t : list event) : list Request :=
  omap (λ e, match e with Sent rq => Some rq | Printed _ => None end) t.

(** A transport that answers every request with a response whose body is the
    JSON document [env], whatever the HTTP status. *)
Definition answers (request : Request → result Response) (env : value) : Prop :=
  ∀ rq, ∃ response, request rq = Ok response ∧ json response = Some env.

(** A transport with one canned response, and one that always raises. *)
Definition mock (response : Response) : Request → result Response :=
  λ _, Ok response.

Definition failing (e : exn) : Request → result Response :=
  λ _, Raise e.

(** [env['result']['code']] and [env['result']['message']]. *)
Definition result_code (env : value) : result value :=
  match getitem_str env "result" with
  | Ok r => getitem_str r "code"
  | Raise e => Raise e
  end.

Definition result_message (env : value) : result value :=
  match getitem_str env "result" with
  | Ok r => getitem_str r "message"
  | Raise e => Raise e
  end.

(** What is made of the body of an answer: it is parsed as JSON, then
    [result.code] is checked, 200 giving [items] and anything else an
    [ApiException] with [result.code] and [result.message]. *)
Definition checked_envelope (body : option value) : result value :=
  match body with
  | None => Raise JSONDecodeError
  | Some env =>
      match result_code env with
      | Raise e => Raise e
      | Ok c =>
          if eq_int c 200 then getitem_str env "items"
          else match result_message env with
               | Ok m => Raise (ApiError (mkApiException c m))
               | Raise e => Raise e
               end
      end
  end.

Definition is_string (v : value) : bool :=
  match v with
  | VStr _ => true
  | _ => false
  end.

(** Every value of a parameter mapping is a string. *)
Definition all_strings (data : gmap string value) : Prop :=
  map_Forall (λ _ v, is_string v = true) data.

(** Every value of a parameter mapping is a string, but for [type], which may
    be the integer of an enumeration member. *)
Definition strings_but_type (data : gmap string value) : Prop :=
  map_Forall (λ k v, is_string v = true ∨ (k = "type" ∧ (v = VInt 1 ∨ v = VInt 2))) data.

(** The integer [c] or the string [m] occurs in [v], at any depth. *)
Fixpoint mentions (c : Z) (m : string) (v : value) : bool :=
  match v with
  | VInt n => n =? c
  | VStr s => String.eqb s m
  | VList l => existsb (mentions c m) l
  | VDict d => existsb (λ kv, mentions c m (snd kv)) d
  | _ => false
  end.

(** An entry of a status answer: a dict whose [status] is the integer [n]. *)
Definition status_entry (item : value) (n : Z) : Prop :=
  ∃ d, item = VDict d ∧ dict_get "status" d = Some (VInt n).

(** [out] is [item] with its [status], the integer [n], replaced in place by
    the text of the table for [n]. *)
Definition status_translated (item out : value) : Prop :=
  ∃ d n text,
    item = VDict d ∧ dict_get "status" d = Some (VInt n) ∧
    Statuses !! n = Some text ∧
    out = VDict (dict_set "status" (VStr text) d) ∧
    getitem_str out "status" = Ok (VStr text).

(** The [status] of [out] is one of the seven texts of the table. *)
Definition status_is_text (out : value) : Prop :=
  ∃ n text, 0 ≤ n ≤ 6 ∧ Statuses !! n = Some text ∧
            getitem_str out "status" = Ok (VStr text).

Definition me : Ghasedak := init "0123456789abcdef".

Definition insufficient_credit : value :=
  VDict [("result", VDict [("code", VInt 402); ("message", VStr "Insufficient credit")])].

Definition two_items : value :=
  VDict [("result", VDict [("code", VInt 200); ("message", VStr "ok")]);
         ("items", VList [VStr "x"; VStr "42"])].

(** The request that [makeRequest] builds for [self]. *)
Definition request_of (self : Ghasedak) (method endpoint : string)
    (data : gmap string value) : Request :=
  mkRequest method (url self +:+ endpoint) data (headers self).

(** A transport that answers every request with a response on which
    [response.json()] gives [body] ([None]: the body is not JSON). *)
Definition responds (request : Request → result Response) (body : option value) : Prop :=
  ∀ rq, ∃ response, request rq = Ok response ∧ json response = body.

(** A transport whose responses all have a status that [raise_for_status]
    accepts. *)
Definition accepted_status (request : Request → result Response) : Prop :=
  ∀ rq response, request rq = Ok response →
    ¬ (400 ≤ status_code response < 600).

(** The exceptions that the [except] clauses of [makeRequest] match, and the
    one that the [except] clause of the public operations matches. *)
Definition is_RequestException (e : exn) : bool :=
  match e with
  | ConnectionError _ | HTTPError _ | RequestException _ => true
  | _ => false
  end.

Definition is_ApiException (e : exn) : bool :=
  match e with
  | ApiError _ => true
  | _ => false
  end.

(** The codes for which [ApiException.__str__] gives no text: an integer
    other than 200 that is not from 400 to 499, and every string, [None],
    boolean, list and dict. *)
Definition code_without_text (c : value) : bool :=
  match c with
  | VInt n => negb (n =? 200) && negb ((400 <=? n) && (n <? 500))
  | VStr _ | VNone | VBool _ | VList _ | VDict _ => true
  end.

(** The values that can be the key of a dict: all but lists and dicts. *)
Definition hashable (v : value) : bool :=
  match v with
  | VList _ | VDict _ => false
  | _ => true
  end.

(** [out] is the dict [item] with nothing changed but the value of [status]:
    the same keys in the same order, the same value under every other key. *)
Definition same_but_status (item out : value) : Prop :=
  ∃ d d', item = VDict d ∧ out = VDict d' ∧
          map fst d' = map fst d ∧
          ∀ k, k ≠ "status" → dict_get k d' = dict_get k d.

(** ** The monad *)

Lemma outcome_bind {A B : Type} (m : M A) (f : A → M B) :
  outcome (m ≫= f) =
  match outcome m with
  | Ok a => outcome (f a)
  | Raise e => Raise e
  end.
Proof. unfold mbind, M_bind. by destruct (outcome m). Qed.

Lemma trace_bind {A B : Type} (m : M A) (f : A → M B) :
  trace (m ≫= f) =
  match outcome m with
  | Ok a => trace m ++ trace (f a)
  | Raise _ => trace m
  end.
Proof. unfold mbind, M_bind. by destruct (outcome m). Qed.

Lemma sent_app (t1 t2 : list event) : sent (t1 ++ t2) = sent t1 ++ sent t2.
Proof. apply omap_app. Qed.

(** ** makeRequest *)

Section Dispatch.

Variable request : Request → result Response.
Variable self : Ghasedak.

Lemma makeRequest_rest_silent (response : option Response) :
  trace (makeRequest_rest response) = [].
Proof.
  destruct response as [response|]; [|done].
  unfold makeRequest_rest, lift.
  rewrite !trace_bind; simpl.
  destruct (response_json response) as [res_json|]; [|done].
  rewrite !trace_bind; simpl.
  destruct (getitem_str res_json "result") as [r|]; [|done].
  rewrite !trace_bind; simpl.
  destruct (getitem_str r "code") as [c|]; [|done].
  simpl. destruct (eq_int c 200); [done|].
  rewrite trace_bind; simpl.
  by destruct (getitem_str r "message").
Qed.

(** Once the transport has answered, only the body of the answer counts. *)
Lemma makeRequest_answered (endpoint : string) (data : option (gmap string value))
    (method : string) (response : Response) :
  request (mkRequest method (url self +:+ endpoint) (default ∅ data) (headers self))
    = Ok response →
  outcome (makeRequest request self endpoint data method)
    = outcome (makeRequest_rest (Some response)).
Proof.
  intros Hrq. unfold makeRequest.
  rewrite outcome_bind, outcome_bind; simpl. rewrite Hrq.
  unfold raise_for_status.
  destruct ((400 <=? status_code response) && (status_code response <? 500)); [done|].
  by destruct ((500 <=? status_code response) && (status_code response <? 600)).
Qed.

Lemma makeRequest_rest_checked (response : Response) :
  outcome (makeRequest_rest (Some response)) = checked_envelope (json response).
Proof.
  unfold makeRequest_rest, response_json, checked_envelope, result_code, result_message, lift.
  destruct (json response) as [env|]; [|done].
  rewrite outcome_bind; simpl.
  destruct (getitem_str env "result") as [r|]; [|done].
  rewrite outcome_bind; simpl. rewrite outcome_bind; simpl.
  destruct (getitem_str r "code") as [c|]; [|done].
  simpl. destruct (eq_int c 200); [done|].
  rewrite outcome_bind; simpl.
  by destruct (getitem_str r "message").
Qed.

Lemma makeRequest_rest_success (response : Response) (env : value) :
  json response = Some env →
  result_code env = Ok (VInt 200) →
  outcome (makeRequest_rest (Some response)) = getitem_str env "items".
Proof.
  intros Hjson Hcode. unfold result_code in Hcode.
  unfold makeRequest_rest, response_json, lift. rewrite Hjson.
  rewrite outcome_bind; simpl.
  destruct (getitem_str env "result") as [r|]; [|done].
  rewrite outcome_bind; simpl. rewrite outcome_bind; simpl.
  by rewrite Hcode.
Qed.

Lemma makeRequest_rest_failure (response : Response) (env c m : value) :
  json response = Some env →
  result_code env = Ok c →
  eq_int c 200 = false →
  result_message env = Ok m →
  outcome (makeRequest_rest (Some response)) = Raise (ApiError (mkApiException c m)).
Proof.
  intros Hjson Hcode Hne Hmsg. unfold result_code in Hcode. unfold result_message in Hmsg.
  unfold makeRequest_rest, response_json, lift. rewrite Hjson.
  rewrite outcome_bind; simpl.
  destruct (getitem_str env "result") as [r|]; [|done].
  rewrite outcome_bind; simpl. rewrite outcome_bind; simpl.
  rewrite Hcode; simpl. rewrite Hne.
  rewrite outcome_bind; simpl. by rewrite Hmsg.
Qed.

Lemma makeRequest_success (endpoint : string) (data : option (gmap string value))
    (method : string) (env : value) :
  answers request env →
  result_code env = Ok (VInt 200) →
  outcome (makeRequest request self endpoint data method) = getitem_str env "items".
Proof.
  intros Hans Hcode.
  destruct (Hans (mkRequest method (url self +:+ endpoint) (default ∅ data) (headers self)))
    as (response & Hrq & Hjson).
  rewrite (makeRequest_answered _ _ _ _ Hrq).
  by apply makeRequest_rest_success.
Qed.

Lemma makeRequest_failure (endpoint : string) (data : option (gmap string value))
    (method : string) (env c m : value) :
  answers request env →
  result_code env = Ok c →
  eq_int c 200 = false →
  result_message env = Ok m →
  outcome (makeRequest request self endpoint data method)
    = Raise (ApiError (mkApiException c m)).
Proof.
  intros Hans Hcode Hne Hmsg.
  destruct (Hans (mkRequest method (url self +:+ endpoint) (default ∅ data) (headers self)))
    as (response & Hrq & Hjson).
  rewrite (makeRequest_answered _ _ _ _ Hrq).
  by eapply makeRequest_rest_failure.
Qed.

(** [makeRequest] hands exactly one request to the transport. *)
Lemma sent_makeRequest (endpoint : string) (data : option (gmap string value))
    (method : string) :
  sent (trace (makeRequest request self endpoint data method))
    = [mkRequest method (url self +:+ endpoint) (default ∅ data) (headers self)].
Proof.
  unfold makeRequest.
  set (rq := mkRequest method (url self +:+ endpoint) (default ∅ data) (headers self)).
  rewrite trace_bind, outcome_bind, trace_bind; simpl.
  destruct (request rq) as [response|e].
  - unfold raise_for_status.
    destruct ((400 <=? status_code response) && (status_code response <? 500)); simpl;
      [by rewrite makeRequest_rest_silent|].
    destruct ((500 <=? status_code response) && (status_code response <? 600)); simpl;
      by rewrite makeRequest_rest_silent.
  - by destruct e.
Qed.

End Dispatch.

(** ** The boundary of the public operations *)

(** All four operations have one shape: [makeRequest] inside a [try] whose
    handler prints the [ApiException] and returns a sentinel, then the
    statements [k] on the value that [makeRequest] returned. *)
Lemma guarded_outcome (m : M value) (sentinel : value) (k : value → M value) :
  outcome (try_except (m ≫= λ res, mret (Next res)) (except_ApiException sentinel)
             ≫= λ r, match r with Return v => mret v | Next res => k res end)
  = match outcome m with
    | Ok res => outcome (k res)
    | Raise (ApiError api_error) =>
        match str_ApiException api_error with
        | Ok _ => Ok sentinel
        | Raise e => Raise e
        end
    | Raise e => Raise e
    end.
Proof.
  destruct m as [t [res|e]]; [done|].
  destruct e; try done.
  unfold try_except, except_ApiException; simpl.
  rewrite outcome_bind; simpl. rewrite outcome_bind; simpl.
  by destruct (str_ApiException e).
Qed.

Lemma guarded_sent (m : M value) (sentinel : value) (k : value → M value) :
  (∀ res, trace (k res) = []) →
  sent (trace (try_except (m ≫= λ res, mret (Next res)) (except_ApiException sentinel)
                 ≫= λ r, match r with Return v => mret v | Next res => k res end))
  = sent (trace m).
Proof.
  intros Hk. destruct m as [t [res|e]].
  - rewrite trace_bind; simpl. by rewrite Hk, !app_nil_r.
  - destruct e; try done.
    unfold try_except, except_ApiException; simpl.
    rewrite trace_bind; simpl. rewrite outcome_bind, trace_bind; simpl.
    destruct (str_ApiException e); simpl; rewrite ?sent_app; simpl; by rewrite !app_nil_r.
Qed.

Lemma guarded_printed (m : M value) (sentinel : value) (k : value → M value)
    (api_error : ApiException) (text : string) :
  outcome m = Raise (ApiError api_error) →
  str_ApiException api_error = Ok text →
  trace (try_except (m ≫= λ res, mret (Next res)) (except_ApiException sentinel)
           ≫= λ r, match r with Return v => mret v | Next res => k res end)
  = trace m ++ [Printed ("[Ghasedak] " +:+ text)].
Proof.
  intros Hm Hstr. destruct m as [t o]; simpl in *; subst o.
  unfold try_except, except_ApiException; simpl.
  rewrite trace_bind; simpl. rewrite outcome_bind, trace_bind; simpl.
  rewrite Hstr; simpl. by rewrite app_nil_r.
Qed.

Lemma lift_silent {A : Type} (r : result A) : trace (lift r) = [].
Proof. done. Qed.

Lemma dict_get_set (k : string) (v : value) (d : list (string * value)) :
  dict_get k (dict_set k v d) = Some v.
Proof.
  induction d as [|[k' v'] d IH]; simpl.
  - by rewrite String.eqb_refl.
  - destruct (String.eqb k k') eqn:E; simpl; [by rewrite String.eqb_refl|].
    by rewrite E.
Qed.

Lemma Statuses_total (n : Z) :
  0 ≤ n ≤ 6 → ∃ text, Statuses !! n = Some text.
Proof.
  intros Hn.
  assert (n = 0 ∨ n = 1 ∨ n = 2 ∨ n = 3 ∨ n = 4 ∨ n = 5 ∨ n = 6) as Hcases by lia.
  destruct Hcases as [->|[->|[->|[->|[->|[->| ->]]]]]]; eexists; reflexivity.
Qed.

Lemma translate_status_entry (d : list (string * value)) (n : Z) (text : string) :
  dict_get "status" d = Some (VInt n) →
  Statuses !! n = Some text →
  translate_status (VDict d) = Ok (VDict (dict_set "status" (VStr text) d)).
Proof.
  intros Hget Htab. unfold translate_status; simpl.
  rewrite Hget; simpl. by rewrite Htab.
Qed.

Lemma for_each_translate (items : list value) :
  Forall (λ item, ∃ n, status_entry item n ∧ 0 ≤ n ≤ 6) items →
  ∃ out, for_each translate_status items = Ok out ∧
         Forall2 status_translated items out ∧
         Forall status_is_text out.
Proof.
  induction 1 as [|item items (n & (d & -> & Hget) & Hn) _ (out & Hout & Hall & Htext)].
  - exists []. by repeat split; constructor.
  - destruct (Statuses_total n Hn) as [text Htab].
    assert (getitem_str (VDict (dict_set "status" (VStr text) d)) "status"
            = Ok (VStr text)) as Hstatus by (simpl; by rewrite dict_get_set).
    exists (VDict (dict_set "status" (VStr text) d) :: out). split; [|split].
    + simpl for_each. rewrite (translate_status_entry d n text Hget Htab). by rewrite Hout.
    + constructor; [|done]. by exists d, n, text.
    + constructor; [|done]. by exists n, text.
Qed.

Lemma foldl_insert_preserves (P : string → value → Prop) (params : list (string * value))
    (data : gmap string value) :
  (∀ k v, P k (VStr (str v))) →
  map_Forall P data →
  map_Forall P (foldl (λ data pv, <[fst pv := VStr (str (snd pv))]> data) data params).
Proof.
  intros HP. revert data.
  induction params as [|[k v] params IH]; intros data Hdata; simpl; [done|].
  apply IH. by apply map_Forall_insert_2.
Qed.

Lemma foldl_insert_untouched (params : list (string * value)) (data : gmap string value)
    (k : string) :
  k ∉ params.*1 →
  foldl (λ data pv, <[fst pv := VStr (str (snd pv))]> data) data params !! k = data !! k.
Proof.
  revert data. induction params as [|[k0 v0] params IH]; intros data Hk; simpl; [done|].
  rewrite fmap_cons, not_elem_of_cons in Hk. destruct Hk as [Hne Hk].
  rewrite IH by done. simpl. by rewrite lookup_insert_ne.
Qed.

(** ** Failures at the public boundary *)

(** C1.  The claim asks that a transport failure in any public operation ends
    in the failure sentinel, with no exception leaving the operation.  The
    code does not do that: when the transport raises [ConnectionError],
    [makeRequest] prints the error and returns [None], and [sendMessage] then
    evaluates [res[1]] on that [None], so a [TypeError] leaves [sendMessage],
    whatever its arguments.  [getSMSStatus] iterates over the same [None] and
    raises too, while [sendOtpVerification] and [getAccountInfo] return the
    [None] they were given. *)
Theorem connection_error_leaves_sendMessage (self : Ghasedak) (msg : string)
    (message receptor linenumber senddate checkid id otp template : value)
    (kind : MessageIDType) (type : MessageType) (params : list (string * value)) :
  outcome (makeRequest (failing (ConnectionError msg)) self "/sms/send/simple"
             (Some (sendMessage_data message receptor linenumber senddate checkid)) "POST")
    = Ok VNone ∧
  outcome (sendMessage (failing (ConnectionError msg)) self
             message receptor linenumber senddate checkid) = Raise TypeError ∧
  outcome (getSMSStatus (failing (ConnectionError msg)) self id kind) = Raise TypeError ∧
  outcome (sendOtpVerification (failing (ConnectionError msg)) self
             otp receptor template type checkid params) = Ok VNone ∧
  outcome (getAccountInfo (failing (ConnectionError msg)) self) = Ok VNone.
Proof. repeat split; reflexivity. Qed.

(** C2, as stated, fails: against the answer
    [{"result": {"code": 402, "message": "Insufficient credit"}}] the call
    [sendMessage("hello", "98912345678")] returns, but what it returns holds
    neither the code 402 nor the message. *)
Lemma sendMessage_sentinel_carries_nothing :
  ¬ ∃ v,
      outcome (sendMessage (mock (mkResponse 200 "OK" "" (Some insufficient_credit))) me
                 (VStr "hello") (VStr "98912345678") VNone VNone VNone) = Ok v ∧
      mentions 402 "Insufficient credit" v = true.
Proof. intros (v & Hv & Hm). vm_compute in Hv. by inversion Hv; subst. Qed.

(** C2, amended.  Against a transport whose answer has [result.code] 402 and
    [result.message] "Insufficient credit", no public operation raises: each
    returns its bare sentinel, [False] for [sendMessage],
    [sendOtpVerification] and [getSMSStatus] and [None] for [getAccountInfo],
    and the code and the message appear only in the last line printed,
    "[Ghasedak] 402 Client Error: Insufficient credit". *)
Theorem insufficient_credit_gives_sentinel (request : Request → result Response)
    (self : Ghasedak) (env : value)
    (message receptor linenumber senddate checkid id otp template : value)
    (kind : MessageIDType) (type : MessageType) (params : list (string * value)) :
  answers request env →
  result_code env = Ok (VInt 402) →
  result_message env = Ok (VStr "Insufficient credit") →
  let line := Printed "[Ghasedak] 402 Client Error: Insufficient credit" in
  let sendMessage' := sendMessage request self message receptor linenumber senddate checkid in
  let sendOtpVerification' :=
    sendOtpVerification request self otp receptor template type checkid params in
  let getSMSStatus' := getSMSStatus request self id kind in
  let getAccountInfo' := getAccountInfo request self in
  (outcome sendMessage' = Ok (VBool false) ∧ last (trace sendMessage') = Some line) ∧
  (outcome sendOtpVerification' = Ok (VBool false) ∧
   last (trace sendOtpVerification') = Some line) ∧
  (outcome getSMSStatus' = Ok (VBool false) ∧ last (trace getSMSStatus') = Some line) ∧
  (outcome getAccountInfo' = Ok VNone ∧ last (trace getAccountInfo') = Some line).
Proof.
  intros Hans Hcode Hmsg.
  pose proof (λ endpoint data method,
    makeRequest_failure request self endpoint data method env _ _ Hans Hcode eq_refl Hmsg)
    as Hfail.
  cbv zeta. unfold sendMessage, sendOtpVerification, getSMSStatus, getAccountInfo.
  repeat split;
    first [ by rewrite guarded_outcome, Hfail
          | erewrite guarded_printed; [apply last_snoc | apply Hfail | reflexivity] ].
Qed.

Lemma insufficient_credit_gives_sentinel_witness :
  outcome (sendMessage (mock (mkResponse 402 "Payment Required" "" (Some insufficient_credit)))
             me (VStr "hello") (VStr "98912345678") VNone VNone VNone) = Ok (VBool false).
Proof.
  refine (proj1 (proj1 (insufficient_credit_gives_sentinel
    (mock (mkResponse 402 "Payment Required" "" (Some insufficient_credit))) me
    insufficient_credit (VStr "hello") (VStr "98912345678") VNone VNone VNone
    (VStr "7") (VStr "1234") (VStr "login") CHECK_ID TEXT [] _ _ _))).
  - intros rq. eexists. split; reflexivity.
  - reflexivity.
  - reflexivity.
Defined.

(** ** The parameters sent *)

Section Parameters.

Variable request : Request → result Response.
Variable self : Ghasedak.

Lemma sent_sendMessage (message receptor linenumber senddate checkid : value) :
  sent (trace (sendMessage request self message receptor linenumber senddate checkid))
  = [mkRequest "POST" (url self +:+ "/sms/send/simple")
       (sendMessage_data message receptor linenumber senddate checkid) (headers self)].
Proof.
  unfold sendMessage. cbv zeta.
  rewrite guarded_sent by (intros; apply lift_silent).
  apply sent_makeRequest.
Qed.

Lemma sent_sendOtpVerification (otp receptor template : value) (type : MessageType)
    (checkid : value) (params : list (string * value)) :
  sent (trace (sendOtpVerification request self otp receptor template type checkid params))
  = [mkRequest "POST" (url self +:+ "/verification/send/simple")
       (sendOtpVerification_data otp receptor template type checkid params) (headers self)].
Proof.
  unfold sendOtpVerification. cbv zeta.
  rewrite guarded_sent by done.
  apply sent_makeRequest.
Qed.

Lemma sent_getSMSStatus (id : value) (type : MessageIDType) :
  sent (trace (getSMSStatus request self id type))
  = [mkRequest "GET" (url self +:+ "/sms/status") (getSMSStatus_data id type) (headers self)].
Proof.
  unfold getSMSStatus. cbv zeta.
  rewrite guarded_sent by (intros; apply lift_silent).
  apply sent_makeRequest.
Qed.

Lemma sent_getAccountInfo :
  sent (trace (getAccountInfo request self))
  = [mkRequest "POST" (url self +:+ "/account/info") ∅ (headers self)].
Proof.
  unfold getAccountInfo.
  rewrite guarded_sent by done.
  apply sent_makeRequest.
Qed.

Lemma sendMessage_data_strings (message receptor linenumber senddate checkid : value) :
  all_strings (sendMessage_data message receptor linenumber senddate checkid).
Proof.
  unfold all_strings, sendMessage_data.
  destruct (is_not_None linenumber), (is_not_None senddate), (is_not_None checkid);
    repeat (apply map_Forall_insert_2; [done|]); apply map_Forall_empty.
Qed.

Lemma sendOtpVerification_data_strings (otp receptor template : value) (type : MessageType)
    (checkid : value) (params : list (string * value)) :
  strings_but_type (sendOtpVerification_data otp receptor template type checkid params).
Proof.
  unfold strings_but_type, sendOtpVerification_data.
  apply map_Forall_insert_2; [by left|].
  apply foldl_insert_preserves; [by left|].
  assert (map_Forall
            (λ (k : string) (v : value),
               is_string v = true ∨ k = "type" ∧ (v = VInt 1 ∨ v = VInt 2))
            (<["type" := MessageType_value type]>
               (<["template" := VStr (str template)]>
                  (<["receptor" := VStr (str receptor)]> (∅ : gmap string value))))) as Hbase.
  { apply map_Forall_insert_2; [right; split; [done|]; destruct type; auto|].
    repeat (apply map_Forall_insert_2; [by left|]). apply map_Forall_empty. }
  destruct (is_not_None checkid); [|done].
  by apply map_Forall_insert_2; [left|].
Qed.

Lemma getSMSStatus_data_strings (id : value) (type : MessageIDType) :
  strings_but_type (getSMSStatus_data id type).
Proof.
  unfold strings_but_type, getSMSStatus_data.
  apply map_Forall_insert_2; [right; split; [done|]; destruct type; auto|].
  apply map_Forall_insert_2; [by left|]. apply map_Forall_empty.
Qed.

End Parameters.

(** C3, as stated, fails: the mapping that [getSMSStatus("123")] hands to
    [makeRequest], and [makeRequest] to the transport, binds [type] to the
    integer 2, the value of [MessageIDType.CHECK_ID], not to a string. *)
Lemma getSMSStatus_sends_an_integer_type :
  ¬ ∀ rq,
      rq ∈ sent (trace (getSMSStatus (mock (mkResponse 200 "OK" "" (Some two_items))) me
                          (VStr "123") CHECK_ID)) →
      all_strings (rq_data rq).
Proof.
  intros Hall.
  specialize (Hall _ ltac:(rewrite sent_getSMSStatus; apply list_elem_of_here)).
  specialize (Hall "type" (VInt 2) ltac:(reflexivity)).
  discriminate Hall.
Qed.

(** C3, amended.  Every public operation hands exactly one request to the
    transport.  Every value of its parameter mapping is a string, except
    [type] in [sendOtpVerification] and [getSMSStatus], which is bound to the
    integer value of the enumeration member (1 or 2) as it is, and is no
    string; the mapping of [sendMessage] holds strings only and that of
    [getAccountInfo] is empty.  (In [sendOtpVerification] this is so for
    every call of Python, where no extra keyword argument can bear the name
    [type] of a named parameter.) *)
Theorem parameters_are_strings_but_type (request : Request → result Response)
    (self : Ghasedak)
    (message receptor linenumber senddate checkid id otp template : value)
    (kind : MessageIDType) (type : MessageType) (params : list (string * value)) :
  (∃ rq, sent (trace (sendMessage request self message receptor linenumber senddate checkid))
           = [rq] ∧ all_strings (rq_data rq)) ∧
  (∃ rq, sent (trace (sendOtpVerification request self otp receptor template type
                        checkid params)) = [rq] ∧
         strings_but_type (rq_data rq) ∧
         ("type" ∉ params.*1 →
          rq_data rq !! "type" = Some (MessageType_value type))) ∧
  (∃ rq, sent (trace (getSMSStatus request self id kind)) = [rq] ∧
         strings_but_type (rq_data rq) ∧
         rq_data rq !! "type" = Some (MessageIDType_value kind)) ∧
  (∃ rq, sent (trace (getAccountInfo request self)) = [rq] ∧ rq_data rq = ∅) ∧
  MessageType_value type = VInt (match type with TEXT => 1 | VOICE => 2 end) ∧
  MessageIDType_value kind = VInt (match kind with MESSAGE_ID => 1 | CHECK_ID => 2 end) ∧
  is_string (MessageType_value type) = false ∧
  is_string (MessageIDType_value kind) = false.
Proof.
  split; [|split; [|split; [|split]]].
  - eexists. split; [apply sent_sendMessage|]. apply sendMessage_data_strings.
  - eexists. split; [apply sent_sendOtpVerification|].
    split; [apply sendOtpVerification_data_strings|].
    intros Htype. unfold sendOtpVerification_data; simpl.
    rewrite lookup_insert_ne by done.
    rewrite foldl_insert_untouched by done.
    destruct (is_not_None checkid).
    + rewrite lookup_insert_ne by done. apply lookup_insert_eq.
    + apply lookup_insert_eq.
  - eexists. split; [apply sent_getSMSStatus|].
    split; [apply getSMSStatus_data_strings|]. apply lookup_insert_eq.
  - eexists. split; [apply sent_getAccountInfo|]. done.
  - by destruct type, kind.
Qed.

Lemma parameters_are_strings_but_type_witness :
  ∃ rq,
    sent (trace (sendOtpVerification (mock (mkResponse 200 "OK" "" (Some two_items))) me
                   (VStr "1234") (VStr "98912345678") (VStr "login") VOICE VNone
                   [("param1", VStr "0000"); ("param2", VStr "x")])) = [rq] ∧
    strings_but_type (rq_data rq) ∧
    rq_data rq !! "type" = Some (VInt 2).
Proof.
  destruct (proj1 (proj2 (parameters_are_strings_but_type
    (mock (mkResponse 200 "OK" "" (Some two_items))) me
    (VStr "hello") (VStr "98912345678") VNone VNone VNone (VStr "7")
    (VStr "1234") (VStr "login") CHECK_ID VOICE
    [("param1", VStr "0000"); ("param2", VStr "x")])))
    as (rq & Hsent & Hstrings & Htype).
  exists rq. split; [exact Hsent|]. split; [exact Hstrings|].
  apply Htype. simpl. intros Hin.
  apply elem_of_cons in Hin as [Hin|Hin]; [discriminate Hin|].
  apply list_elem_of_singleton in Hin. discriminate Hin.
Defined.

(** C4.  Whatever the OTP, the receptor, the template and the extra keyword
    parameters, [param1] among them or not, the one request that
    [sendOtpVerification] sends binds [param1] to [str(otp)]; for an OTP that
    is a string this is the OTP itself. *)
Theorem sendOtpVerification_forces_param1 (request : Request → result Response)
    (self : Ghasedak) (otp receptor template : value) (type : MessageType)
    (checkid : value) (params : list (string * value)) :
  (∃ rq, sent (trace (sendOtpVerification request self otp receptor template type
                        checkid params)) = [rq] ∧
         rq_data rq !! "param1" = Some (VStr (str otp))) ∧
  (∀ s : string,
     ∃ rq, sent (trace (sendOtpVerification request self (VStr s) receptor template type
                          checkid params)) = [rq] ∧
           rq_data rq !! "param1" = Some (VStr s)).
Proof.
  split; [|intros s]; (eexists; split; [apply sent_sendOtpVerification|]);
    apply lookup_insert_eq.
Qed.

(** C8.  With [linenumber], [senddate] and [checkid] left out (they are then
    [None]), the one request that [sendMessage] sends has a parameter mapping
    with exactly the keys [message] and [receptor], bound to [str(message)]
    and [str(receptor)]. *)
Theorem sendMessage_minimal_parameters (request : Request → result Response)
    (self : Ghasedak) (message receptor : value) :
  ∃ rq, sent (trace (sendMessage request self message receptor VNone VNone VNone)) = [rq] ∧
        rq_data rq = {[ "message" := VStr (str message); "receptor" := VStr (str receptor) ]} ∧
        dom (rq_data rq) = ({[ "message"; "receptor" ]} : gset string) ∧
        rq_data rq !! "message" = Some (VStr (str message)) ∧
        rq_data rq !! "receptor" = Some (VStr (str receptor)).
Proof.
  eexists. split; [apply sent_sendMessage|].
  unfold sendMessage_data; simpl.
  split; [by apply insert_insert_ne|].
  split; [rewrite !dom_insert_L; set_solver|].
  split; [by rewrite lookup_insert_ne|by rewrite lookup_insert_eq].
Qed.

(** ** What the operations return *)

(** C5.  When the answer has [result.code] 200 and [items] is a list of at
    least two elements, [sendMessage] returns the second of them and drops the
    first. *)
Theorem sendMessage_returns_second_item (request : Request → result Response)
    (self : Ghasedak) (message receptor linenumber senddate checkid : value)
    (env first second : value) (others : list value) :
  answers request env →
  result_code env = Ok (VInt 200) →
  getitem_str env "items" = Ok (VList (first :: second :: others)) →
  outcome (sendMessage request self message receptor linenumber senddate checkid)
    = Ok second.
Proof.
  intros Hans Hcode Hitems. unfold sendMessage. cbv zeta.
  rewrite guarded_outcome, (makeRequest_success _ _ _ _ _ env Hans Hcode), Hitems.
  reflexivity.
Qed.

Lemma sendMessage_returns_second_item_witness :
  outcome (sendMessage (mock (mkResponse 200 "OK" "" (Some two_items))) me
             (VStr "hello") (VStr "98912345678") VNone VNone VNone) = Ok (VStr "42").
Proof.
  apply (sendMessage_returns_second_item _ _ _ _ _ _ _ two_items (VStr "x") (VStr "42") []).
  - intros rq. eexists. split; reflexivity.
  - reflexivity.
  - reflexivity.
Defined.

(** C6.  When the transport answers with a status from 400 to 599,
    [makeRequest] prints the HTTP error and goes on: its result is the body
    parsed as JSON with [result.code] checked, the same result as for the same
    body under status 200. *)
Theorem http_error_status_falls_through (request : Request → result Response)
    (self : Ghasedak) (endpoint : string) (data : option (gmap string value))
    (method : string) (response : Response) :
  request (mkRequest method (url self +:+ endpoint) (default ∅ data) (headers self))
    = Ok response →
  400 ≤ status_code response < 600 →
  outcome (makeRequest request self endpoint data method)
    = checked_envelope (json response) ∧
  outcome (makeRequest request self endpoint data method)
    = outcome (makeRequest
                 (mock (mkResponse 200 "OK" (resp_url response) (json response)))
                 self endpoint data method) ∧
  ∃ msg, trace (makeRequest request self endpoint data method)
           = [Sent (mkRequest method (url self +:+ endpoint) (default ∅ data) (headers self));
              Printed ("[Requests] HTTP ERROR: " +:+ msg)].
Proof.
  intros Hrq Hstatus.
  split; [by rewrite (makeRequest_answered _ _ _ _ _ _ Hrq), makeRequest_rest_checked|].
  split.
  - rewrite (makeRequest_answered _ _ _ _ _ _ Hrq).
    erewrite (makeRequest_answered (mock _)); [|reflexivity].
    by rewrite !makeRequest_rest_checked.
  - unfold makeRequest. cbv zeta.
    rewrite trace_bind, outcome_bind, trace_bind; simpl. rewrite Hrq.
    unfold raise_for_status.
    destruct (decide (status_code response < 500)) as [Hlt|Hge].
    + replace ((400 <=? status_code response) && (status_code response <? 500))
        with true by (symmetry; apply andb_true_iff; lia).
      simpl. rewrite makeRequest_rest_silent. by eexists.
    + replace ((400 <=? status_code response) && (status_code response <? 500))
        with false by (symmetry; apply andb_false_iff; lia).
      replace ((500 <=? status_code response) && (status_code response <? 600))
        with true by (symmetry; apply andb_true_iff; lia).
      simpl. rewrite makeRequest_rest_silent. by eexists.
Qed.

Lemma http_error_status_falls_through_witness :
  outcome (makeRequest
             (mock (mkResponse 500 "Internal Server Error" "" (Some two_items)))
             me "/sms/send/simple" None "POST")
    = Ok (VList [VStr "x"; VStr "42"]).
Proof.
  refine (proj1 (http_error_status_falls_through
    (mock (mkResponse 500 "Internal Server Error" "" (Some two_items)))
    me "/sms/send/simple" None "POST"
    (mkResponse 500 "Internal Server Error" "" (Some two_items)) _ _)).
  - reflexivity.
  - simpl. lia.
Defined.

(** C7.  When the answer has [result.code] 200 and every entry of [items] is a
    dict whose [status] is an integer from 0 to 6, [getSMSStatus] returns the
    list of the same entries, each with its [status] replaced, in place, by
    the text of the table [Statuses] for that integer; an entry with status 5
    comes back with the status "Receptor is in Blacklist". *)
Theorem getSMSStatus_translates_statuses (request : Request → result Response)
    (self : Ghasedak) (id : value) (type : MessageIDType) (env : value)
    (items : list value) :
  answers request env →
  result_code env = Ok (VInt 200) →
  getitem_str env "items" = Ok (VList items) →
  Forall (λ item, ∃ n, status_entry item n ∧ 0 ≤ n ≤ 6) items →
  ∃ out,
    outcome (getSMSStatus request self id type) = Ok (VList out) ∧
    Forall2 status_translated items out ∧
    Forall status_is_text out ∧
    ∀ i item, items !! i = Some item → status_entry item 5 →
      ∃ o, out !! i = Some o ∧ getitem_str o "status" = Ok (VStr "Receptor is in Blacklist").
Proof.
  intros Hans Hcode Hitems Hentries.
  destruct (for_each_translate items Hentries) as (out & Hout & Hall & Htext).
  exists out. split; [|split; [done|split; [done|]]].
  - unfold getSMSStatus. cbv zeta.
    rewrite guarded_outcome, (makeRequest_success _ _ _ _ _ env Hans Hcode), Hitems.
    unfold lift, translate_statuses; simpl. by rewrite Hout.
  - intros i item Hi (d & -> & Hget).
    destruct (Forall2_lookup_l _ _ _ _ _ Hall Hi) as (o & Ho & Htr).
    exists o. split; [done|].
    destruct Htr as (d' & n & text & [= <-] & Hget' & Htab & -> & Hstatus).
    rewrite Hget in Hget'. injection Hget' as <-.
    vm_compute in Htab. injection Htab as <-. exact Hstatus.
Qed.

Lemma getSMSStatus_translates_statuses_witness :
  ∃ out,
    outcome (getSMSStatus
               (mock (mkResponse 200 "OK" ""
                  (Some (VDict [("result", VDict [("code", VInt 200); ("message", VStr "ok")]);
                                ("items", VList [VDict [("messageid", VInt 7);
                                                        ("status", VInt 5)]])]))))
               me (VStr "7") MESSAGE_ID) = Ok (VList out) ∧
    ∃ o, out !! 0%nat = Some o ∧
         getitem_str o "status" = Ok (VStr "Receptor is in Blacklist").
Proof.
  destruct (getSMSStatus_translates_statuses
    (mock (mkResponse 200 "OK" ""
       (Some (VDict [("result", VDict [("code", VInt 200); ("message", VStr "ok")]);
                     ("items", VList [VDict [("messageid", VInt 7); ("status", VInt 5)]])]))))
    me (VStr "7") MESSAGE_ID
    (VDict [("result", VDict [("code", VInt 200); ("message", VStr "ok")]);
            ("items", VList [VDict [("messageid", VInt 7); ("status", VInt 5)]])])
    [VDict [("messageid", VInt 7); ("status", VInt 5)]])
    as (out & Hout & _ & _ & Hfive).
  - intros rq. eexists. split; reflexivity.
  - reflexivity.
  - reflexivity.
  - constructor; [|constructor]. exists 5. split; [|lia]. eexists. split; reflexivity.
  - exists out. split; [exact Hout|].
    apply (Hfive 0%nat (VDict [("messageid", VInt 7); ("status", VInt 5)])); [reflexivity|].
    eexists. split; reflexivity.
Defined.

(** ** The text of an ApiException *)

(** C9.  An [ApiException] made with an integer code from 400 to 499 and a
    string message holds the two, and [str] of it is the code, the label
    " Client Error: " and the message. *)
Theorem ApiException_client_error_text (c : Z) (m : string) :
  400 ≤ c < 500 →
  code (mkApiException (VInt c) (VStr m)) = VInt c ∧
  message (mkApiException (VInt c) (VStr m)) = VStr m ∧
  ApiException_str (mkApiException (VInt c) (VStr m))
    = Ok (Some (pretty c +:+ " Client Error: " +:+ m)) ∧
  str_ApiException (mkApiException (VInt c) (VStr m))
    = Ok (pretty c +:+ " Client Error: " +:+ m).
Proof.
  intros Hc.
  assert (ApiException_str (mkApiException (VInt c) (VStr m))
          = Ok (Some (pretty c +:+ " Client Error: " +:+ m))) as Hstr.
  { unfold ApiException_str; simpl.
    replace (400 <=? c) with true by (symmetry; apply Z.leb_le; lia).
    by replace (c <? 500) with true by (symmetry; apply Z.ltb_lt; lia). }
  repeat split; try done.
  unfold str_ApiException. by rewrite Hstr.
Qed.

Lemma ApiException_client_error_text_witness :
  str_ApiException (mkApiException (VInt 402) (VStr "Insufficient credit"))
    = Ok "402 Client Error: Insufficient credit".
Proof.
  exact (proj2 (proj2 (proj2
    (ApiException_client_error_text 402 "Insufficient credit" ltac:(lia))))).
Defined.

(** C10.  For an integer code below 400 or from 500 on, [__str__] of the
    [ApiException] returns [None], so [str] of it, which the handler of every
    public operation needs for the line it prints, is a [TypeError].  Hence,
    against an answer whose [result.code] is such a code other than 200, each
    of the four operations ends with that [TypeError] raised instead of with
    its sentinel returned. *)
Theorem ApiException_other_code_raises (request : Request → result Response)
    (self : Ghasedak) (env : value) (c : Z) (m : value)
    (message receptor linenumber senddate checkid id otp template : value)
    (kind : MessageIDType) (type : MessageType) (params : list (string * value)) :
  answers request env →
  result_code env = Ok (VInt c) →
  result_message env = Ok m →
  c ≠ 200 →
  c < 400 ∨ 500 ≤ c →
  ApiException_str (mkApiException (VInt c) m) = Ok None ∧
  str_ApiException (mkApiException (VInt c) m) = Raise TypeError ∧
  outcome (sendMessage request self message receptor linenumber senddate checkid)
    = Raise TypeError ∧
  outcome (sendOtpVerification request self otp receptor template type checkid params)
    = Raise TypeError ∧
  outcome (getSMSStatus request self id kind) = Raise TypeError ∧
  outcome (getAccountInfo request self) = Raise TypeError.
Proof.
  intros Hans Hcode Hmsg Hne Hout.
  assert (ApiException_str (mkApiException (VInt c) m) = Ok None) as Hstr.
  { unfold ApiException_str; simpl.
    destruct (Z.leb_spec 400 c); [|done].
    by replace (c <? 500) with false by (symmetry; apply Z.ltb_ge; lia). }
  assert (str_ApiException (mkApiException (VInt c) m) = Raise TypeError) as Hraise
    by (unfold str_ApiException; by rewrite Hstr).
  assert (eq_int (VInt c) 200 = false) as Hneq by (simpl; by apply Z.eqb_neq).
  pose proof (λ endpoint data method,
    makeRequest_failure request self endpoint data method env _ _ Hans Hcode Hneq Hmsg)
    as Hfail.
  unfold sendMessage, sendOtpVerification, getSMSStatus, getAccountInfo. cbv zeta.
  repeat split; try done; by rewrite guarded_outcome, Hfail, Hraise.
Qed.

Lemma ApiException_other_code_raises_witness :
  outcome (getAccountInfo
             (mock (mkResponse 200 "OK" ""
                (Some (VDict [("result", VDict [("code", VInt 500);
                                                ("message", VStr "Server error")])]))))
             me) = Raise TypeError.
Proof.
  refine (proj2 (proj2 (proj2 (proj2 (proj2 (ApiException_other_code_raises
    (mock (mkResponse 200 "OK" ""
       (Some (VDict [("result", VDict [("code", VInt 500);
                                       ("message", VStr "Server error")])]))))
    me
    (VDict [("result", VDict [("code", VInt 500); ("message", VStr "Server error")])])
    500 (VStr "Server error")
    (VStr "hello") (VStr "98912345678") VNone VNone VNone (VStr "7") (VStr "1234")
    (VStr "login") CHECK_ID TEXT [] _ _ _ _ _)))))).
  - intros rq. eexists. split; reflexivity.
  - reflexivity.
  - reflexivity.
  - lia.
  - lia.
Defined.

(** ** Further properties: the transport *)

Lemma guarded_trace_returned (m : M value) (sentinel : value) (k : value → M value)
    (res : value) :
  outcome m = Ok res →
  trace (try_except (m ≫= λ res, mret (Next res)) (except_ApiException sentinel)
           ≫= λ r, match r with Return v => mret v | Next res => k res end)
  = trace m ++ trace (k res).
Proof.
  intros Hm. destruct m as [t o]; simpl in *; subst o.
  rewrite trace_bind; simpl. by rewrite app_nil_r.
Qed.

Lemma guarded_raised (m : M value) (sentinel : value) (k : value → M value) (e : exn) :
  outcome m = Raise e →
  is_ApiException e = false →
  outcome (try_except (m ≫= λ res, mret (Next res)) (except_ApiException sentinel)
             ≫= λ r, match r with Return v => mret v | Next res => k res end)
  = Raise e.
Proof.
  intros Hm He. rewrite guarded_outcome, Hm. by destruct e.
Qed.

Lemma makeRequest_raised (request : Request → result Response) (self : Ghasedak)
    (endpoint : string) (data : option (gmap string value)) (method : string) (e : exn) :
  request (request_of self method endpoint (default ∅ data)) = Raise e →
  makeRequest request self endpoint data method
  = (mkM [Sent (request_of self method endpoint (default ∅ data))] (Ok tt);;
     makeRequest_except e None)
      ≫= λ r, match r with Return v => mret v | Next response => makeRequest_rest response end.
Proof. intros Hrq. unfold makeRequest, request_of in *. cbv zeta. by rewrite Hrq. Qed.

Lemma makeRequest_responded (request : Request → result Response) (self : Ghasedak)
    (endpoint : string) (data : option (gmap string value)) (method : string)
    (body : option value) :
  responds request body →
  outcome (makeRequest request self endpoint data method) = checked_envelope body.
Proof.
  intros Hres.
  destruct (Hres (request_of self method endpoint (default ∅ data)))
    as (response & Hrq & <-).
  by rewrite (makeRequest_answered _ _ _ _ _ _ Hrq), makeRequest_rest_checked.
Qed.

Lemma makeRequest_transport_failed (request : Request → result Response)
    (self : Ghasedak) (endpoint : string) (data : option (gmap string value))
    (method : string) (e : exn) (msg : string) :
  request (request_of self method endpoint (default ∅ data)) = Raise e →
  e = ConnectionError msg ∨ e = RequestException msg →
  outcome (makeRequest request self endpoint data method) = Ok VNone.
Proof.
  intros Hrq He. rewrite (makeRequest_raised _ _ _ _ _ _ Hrq).
  by destruct He as [-> | ->].
Qed.

(** X1.  When the transport raises [ConnectionError], or a
    [RequestException] of another class such as a time-out, [makeRequest]
    prints one line with the text of the exception and returns [None]; it
    raises nothing. *)
Theorem makeRequest_swallows_transport_failure (request : Request → result Response)
    (self : Ghasedak) (endpoint : string) (data : option (gmap string value))
    (method : string) (e : exn) (msg : string) :
  request (request_of self method endpoint (default ∅ data)) = Raise e →
  e = ConnectionError msg ∨ e = RequestException msg →
  outcome (makeRequest request self endpoint data method) = Ok VNone ∧
  trace (makeRequest request self endpoint data method)
    = [Sent (request_of self method endpoint (default ∅ data));
       Printed ((match e with
                 | ConnectionError _ => "[Requests] Connection ERROR: "
                 | _ => "[Requests] Request Exception: "
                 end) +:+ msg)].
Proof.
  intros Hrq He. rewrite (makeRequest_raised _ _ _ _ _ _ Hrq).
  by destruct He as [-> | ->].
Qed.

Lemma makeRequest_swallows_transport_failure_witness :
  trace (makeRequest (failing (RequestException "timed out")) me "/account/info" None "POST")
    = [Sent (request_of me "POST" "/account/info" ∅);
       Printed "[Requests] Request Exception: timed out"].
Proof.
  refine (proj2 (makeRequest_swallows_transport_failure
    (failing (RequestException "timed out")) me "/account/info" None "POST"
    (RequestException "timed out") "timed out" _ _)).
  - reflexivity.
  - by right.
Defined.

(** X2.  On a transport that fails every request with [ConnectionError] or
    another [RequestException], [sendOtpVerification] and [getAccountInfo]
    return [None], not [False], while [sendMessage] and [getSMSStatus] raise
    [TypeError]. *)
Theorem transport_failure_at_the_operations (request : Request → result Response)
    (self : Ghasedak) (e : exn) (msg : string)
    (message receptor linenumber senddate checkid id otp template : value)
    (kind : MessageIDType) (type : MessageType) (params : list (string * value)) :
  (∀ rq, request rq = Raise e) →
  e = ConnectionError msg ∨ e = RequestException msg →
  outcome (sendOtpVerification request self otp receptor template type checkid params)
    = Ok VNone ∧
  outcome (getAccountInfo request self) = Ok VNone ∧
  outcome (sendMessage request self message receptor linenumber senddate checkid)
    = Raise TypeError ∧
  outcome (getSMSStatus request self id kind) = Raise TypeError.
Proof.
  intros Hrq He.
  pose proof (λ endpoint data method,
    makeRequest_transport_failed request self endpoint data method e msg (Hrq _) He)
    as Hnone.
  unfold sendMessage, sendOtpVerification, getSMSStatus, getAccountInfo. cbv zeta.
  repeat split; by rewrite guarded_outcome, Hnone.
Qed.

Lemma transport_failure_at_the_operations_witness :
  outcome (getSMSStatus (failing (RequestException "timed out")) me (VStr "7") CHECK_ID)
    = Raise TypeError.
Proof.
  refine (proj2 (proj2 (proj2 (transport_failure_at_the_operations
    (failing (RequestException "timed out")) me (RequestException "timed out") "timed out"
    (VStr "hello") (VStr "98912345678") VNone VNone VNone (VStr "7") (VStr "1234")
    (VStr "login") CHECK_ID TEXT [] _ _)))).
  - reflexivity.
  - by right.
Defined.

(** X3.  An exception of the transport that is no [RequestException] (and no
    [ApiException]) is not handled anywhere: [makeRequest] prints nothing and
    each of the four operations raises that very exception. *)
Theorem foreign_exception_propagates (request : Request → result Response)
    (self : Ghasedak) (e : exn)
    (message receptor linenumber senddate checkid id otp template : value)
    (kind : MessageIDType) (type : MessageType) (params : list (string * value))
    (endpoint : string) (data : option (gmap string value)) (method : string) :
  (∀ rq, request rq = Raise e) →
  is_RequestException e = false →
  is_ApiException e = false →
  trace (makeRequest request self endpoint data method)
    = [Sent (request_of self method endpoint (default ∅ data))] ∧
  outcome (sendMessage request self message receptor linenumber senddate checkid)
    = Raise e ∧
  outcome (sendOtpVerification request self otp receptor template type checkid params)
    = Raise e ∧
  outcome (getSMSStatus request self id kind) = Raise e ∧
  outcome (getAccountInfo request self) = Raise e.
Proof.
  intros Hrq Hreq Hapi.
  assert (∀ endpoint data method,
            outcome (makeRequest request self endpoint data method) = Raise e) as Hraise.
  { intros. rewrite (makeRequest_raised _ _ _ _ _ _ (Hrq _)). by destruct e. }
  split.
  { rewrite (makeRequest_raised _ _ _ _ _ _ (Hrq _)). by destruct e. }
  unfold sendMessage, sendOtpVerification, getSMSStatus, getAccountInfo. cbv zeta.
  repeat split; by apply guarded_raised.
Qed.

Lemma foreign_exception_propagates_witness :
  outcome (sendMessage (failing (OtherError "ValueError")) me
             (VStr "hello") (VStr "98912345678") VNone VNone VNone)
    = Raise (OtherError "ValueError").
Proof.
  refine (proj1 (proj2 (foreign_exception_propagates
    (failing (OtherError "ValueError")) me (OtherError "ValueError")
    (VStr "hello") (VStr "98912345678") VNone VNone VNone (VStr "7") (VStr "1234")
    (VStr "login") CHECK_ID TEXT [] "/account/info" None "POST" _ _ _))).
  - reflexivity.
  - reflexivity.
  - reflexivity.
Defined.

(** X4.  When the transport itself raises [HTTPError], no response was ever
    bound: the handler prints the error and falls through to
    [response.json()], so [makeRequest], and with it each of the four
    operations, raises [UnboundLocalError]. *)
Theorem HTTPError_without_response (request : Request → result Response)
    (self : Ghasedak) (msg : string)
    (message receptor linenumber senddate checkid id otp template : value)
    (kind : MessageIDType) (type : MessageType) (params : list (string * value))
    (endpoint : string) (data : option (gmap string value)) (method : string) :
  (∀ rq, request rq = Raise (HTTPError msg)) →
  trace (makeRequest request self endpoint data method)
    = [Sent (request_of self method endpoint (default ∅ data));
       Printed ("[Requests] HTTP ERROR: " +:+ msg)] ∧
  outcome (makeRequest request self endpoint data method) = Raise UnboundLocalError ∧
  outcome (sendMessage request self message receptor linenumber senddate checkid)
    = Raise UnboundLocalError ∧
  outcome (sendOtpVerification request self otp receptor template type checkid params)
    = Raise UnboundLocalError ∧
  outcome (getSMSStatus request self id kind) = Raise UnboundLocalError ∧
  outcome (getAccountInfo request self) = Raise UnboundLocalError.
Proof.
  intros Hrq.
  assert (∀ endpoint data method,
            outcome (makeRequest request self endpoint data method)
            = Raise UnboundLocalError) as Hraise.
  { intros. by rewrite (makeRequest_raised _ _ _ _ _ _ (Hrq _)). }
  split; [by rewrite (makeRequest_raised _ _ _ _ _ _ (Hrq _))|].
  split; [done|].
  unfold sendMessage, sendOtpVerification, getSMSStatus, getAccountInfo. cbv zeta.
  repeat split; by apply guarded_raised.
Qed.

Lemma HTTPError_without_response_witness :
  outcome (getAccountInfo (failing (HTTPError "bad gateway")) me) = Raise UnboundLocalError.
Proof.
  refine (proj2 (proj2 (proj2 (proj2 (proj2 (HTTPError_without_response
    (failing (HTTPError "bad gateway")) me "bad gateway"
    (VStr "hello") (VStr "98912345678") VNone VNone VNone (VStr "7") (VStr "1234")
    (VStr "login") CHECK_ID TEXT [] "/account/info" None "POST" _)))))).
  reflexivity.
Defined.

(** ** Further properties: the envelope *)

(** X5.  Whatever the status, the reason and the URL of the response,
    [makeRequest] ends as the body alone decides: a body that is not JSON is
    a [JSONDecodeError], a missing [result], [code], [items] or [message] a
    [KeyError], code 200 gives [items] and any other code an [ApiException]
    with the code and the message of the body. *)
Theorem makeRequest_depends_on_body_only (request : Request → result Response)
    (self : Ghasedak) (endpoint : string) (data : option (gmap string value))
    (method : string) (response : Response) :
  request (request_of self method endpoint (default ∅ data)) = Ok response →
  outcome (makeRequest request self endpoint data method)
    = checked_envelope (json response).
Proof.
  intros Hrq. by rewrite (makeRequest_answered _ _ _ _ _ _ Hrq), makeRequest_rest_checked.
Qed.

Lemma makeRequest_depends_on_body_only_witness :
  outcome (makeRequest
             (mock (mkResponse 302 "Found" ""
                (Some (VDict [("result", VDict [("code", VInt 200)])]))))
             me "/account/info" None "POST")
    = Raise (KeyError (VStr "items")).
Proof.
  refine (makeRequest_depends_on_body_only
    (mock (mkResponse 302 "Found" "" (Some (VDict [("result", VDict [("code", VInt 200)])]))))
    me "/account/info" None "POST"
    (mkResponse 302 "Found" "" (Some (VDict [("result", VDict [("code", VInt 200)])]))) _).
  reflexivity.
Defined.

(** X6.  A body that [makeRequest] cannot read (not JSON, not a dict, a key
    missing) makes each of the four operations raise the exception of
    [makeRequest]: only [ApiException] is caught at the boundary. *)
Theorem unreadable_body_raises (request : Request → result Response)
    (self : Ghasedak) (body : option value) (e : exn)
    (message receptor linenumber senddate checkid id otp template : value)
    (kind : MessageIDType) (type : MessageType) (params : list (string * value)) :
  responds request body →
  checked_envelope body = Raise e →
  is_ApiException e = false →
  outcome (sendMessage request self message receptor linenumber senddate checkid)
    = Raise e ∧
  outcome (sendOtpVerification request self otp receptor template type checkid params)
    = Raise e ∧
  outcome (getSMSStatus request self id kind) = Raise e ∧
  outcome (getAccountInfo request self) = Raise e.
Proof.
  intros Hres Hbody Hapi.
  unfold sendMessage, sendOtpVerification, getSMSStatus, getAccountInfo. cbv zeta.
  repeat split; apply guarded_raised; try done;
    by rewrite (makeRequest_responded _ _ _ _ _ body Hres).
Qed.

Lemma unreadable_body_raises_witness :
  outcome (getAccountInfo (mock (mkResponse 200 "OK" "" None)) me) = Raise JSONDecodeError.
Proof.
  refine (proj2 (proj2 (proj2 (unreadable_body_raises
    (mock (mkResponse 200 "OK" "" None)) me None JSONDecodeError
    (VStr "hello") (VStr "98912345678") VNone VNone VNone (VStr "7") (VStr "1234")
    (VStr "login") CHECK_ID TEXT [] _ _ _)))).
  - intros rq. eexists. split; reflexivity.
  - reflexivity.
  - reflexivity.
Defined.

(** X7.  On an answer with code 200, [sendOtpVerification] and
    [getAccountInfo] return [items] untouched, whatever it is, [sendMessage]
    returns [items[1]] and [getSMSStatus] the translation of [items]. *)
Theorem success_passes_items (request : Request → result Response)
    (self : Ghasedak) (body : option value) (items : value)
    (message receptor linenumber senddate checkid id otp template : value)
    (kind : MessageIDType) (type : MessageType) (params : list (string * value)) :
  responds request body →
  checked_envelope body = Ok items →
  outcome (sendOtpVerification request self otp receptor template type checkid params)
    = Ok items ∧
  outcome (getAccountInfo request self) = Ok items ∧
  outcome (sendMessage request self message receptor linenumber senddate checkid)
    = getitem_int items 1 ∧
  outcome (getSMSStatus request self id kind) = translate_statuses items.
Proof.
  intros Hres Hbody.
  unfold sendMessage, sendOtpVerification, getSMSStatus, getAccountInfo. cbv zeta.
  repeat split;
    by rewrite guarded_outcome, (makeRequest_responded _ _ _ _ _ body Hres), Hbody.
Qed.

Lemma success_passes_items_witness :
  outcome (getAccountInfo
             (mock (mkResponse 200 "OK" ""
                (Some (VDict [("result", VDict [("code", VInt 200)]);
                              ("items", VDict [("balance", VInt 1200);
                                               ("expire", VInt 0)])]))))
             me)
    = Ok (VDict [("balance", VInt 1200); ("expire", VInt 0)]).
Proof.
  refine (proj1 (proj2 (success_passes_items
    (mock (mkResponse 200 "OK" ""
       (Some (VDict [("result", VDict [("code", VInt 200)]);
                     ("items", VDict [("balance", VInt 1200); ("expire", VInt 0)])]))))
    me
    (Some (VDict [("result", VDict [("code", VInt 200)]);
                  ("items", VDict [("balance", VInt 1200); ("expire", VInt 0)])]))
    (VDict [("balance", VInt 1200); ("expire", VInt 0)])
    (VStr "hello") (VStr "98912345678") VNone VNone VNone (VStr "7") (VStr "1234")
    (VStr "login") CHECK_ID TEXT [] _ _))).
  - intros rq. eexists. split; reflexivity.
  - reflexivity.
Defined.

(** X8.  On an answer with code 200 whose [items] is a list of fewer than two
    elements, [sendMessage] raises [IndexError]. *)
Theorem sendMessage_short_items (request : Request → result Response)
    (self : Ghasedak) (body : option value) (l : list value)
    (message receptor linenumber senddate checkid : value) :
  responds request body →
  checked_envelope body = Ok (VList l) →
  (length l < 2)%nat →
  outcome (sendMessage request self message receptor linenumber senddate checkid)
    = Raise IndexError.
Proof.
  intros Hres Hbody Hlen.
  unfold sendMessage. cbv zeta.
  rewrite guarded_outcome, (makeRequest_responded _ _ _ _ _ body Hres), Hbody.
  destruct l as [|x [|y l]]; simpl in *; [done|done|lia].
Qed.

Lemma sendMessage_short_items_witness :
  outcome (sendMessage
             (mock (mkResponse 200 "OK" ""
                (Some (VDict [("result", VDict [("code", VInt 200)]);
                              ("items", VList [VInt 42])]))))
             me (VStr "hello") (VStr "98912345678") VNone VNone VNone)
    = Raise IndexError.
Proof.
  refine (sendMessage_short_items
    (mock (mkResponse 200 "OK" ""
       (Some (VDict [("result", VDict [("code", VInt 200)]); ("items", VList [VInt 42])]))))
    me
    (Some (VDict [("result", VDict [("code", VInt 200)]); ("items", VList [VInt 42])]))
    [VInt 42] (VStr "hello") (VStr "98912345678") VNone VNone VNone _ _ _).
  - intros rq. eexists. split; reflexivity.
  - reflexivity.
  - simpl. lia.
Defined.

(** X9.  For every integer code from 400 to 499 and every message, string or
    not, each operation returns its sentinel, and the last line it prints is
    "[Ghasedak] ", the code, " Client Error: " and [str] of the message. *)
Theorem client_error_gives_sentinel (request : Request → result Response)
    (self : Ghasedak) (env : value) (c : Z) (m : value)
    (message receptor linenumber senddate checkid id otp template : value)
    (kind : MessageIDType) (type : MessageType) (params : list (string * value)) :
  answers request env →
  result_code env = Ok (VInt c) →
  result_message env = Ok m →
  400 ≤ c < 500 →
  let line := Printed ("[Ghasedak] " +:+ pretty c +:+ " Client Error: " +:+ str m) in
  let sendMessage' := sendMessage request self message receptor linenumber senddate checkid in
  let sendOtpVerification' :=
    sendOtpVerification request self otp receptor template type checkid params in
  let getSMSStatus' := getSMSStatus request self id kind in
  let getAccountInfo' := getAccountInfo request self in
  (outcome sendMessage' = Ok (VBool false) ∧ last (trace sendMessage') = Some line) ∧
  (outcome sendOtpVerification' = Ok (VBool false) ∧
   last (trace sendOtpVerification') = Some line) ∧
  (outcome getSMSStatus' = Ok (VBool false) ∧ last (trace getSMSStatus') = Some line) ∧
  (outcome getAccountInfo' = Ok VNone ∧ last (trace getAccountInfo') = Some line).
Proof.
  intros Hans Hcode Hmsg Hc.
  assert (eq_int (VInt c) 200 = false) as Hne by (simpl; apply Z.eqb_neq; lia).
  pose proof (λ endpoint data method,
    makeRequest_failure request self endpoint data method env _ _ Hans Hcode Hne Hmsg)
    as Hfail.
  assert (str_ApiException (mkApiException (VInt c) m)
          = Ok (pretty c +:+ " Client Error: " +:+ str m)) as Hstr.
  { unfold str_ApiException, ApiException_str; simpl.
    replace (400 <=? c) with true by (symmetry; apply Z.leb_le; lia).
    by replace (c <? 500) with true by (symmetry; apply Z.ltb_lt; lia). }
  cbv zeta. unfold sendMessage, sendOtpVerification, getSMSStatus, getAccountInfo.
  repeat split;
    first [ by rewrite guarded_outcome, Hfail, Hstr
          | erewrite guarded_printed; [apply last_snoc | apply Hfail | exact Hstr] ].
Qed.

Lemma client_error_gives_sentinel_witness :
  last (trace (getAccountInfo
                 (mock (mkResponse 200 "OK" ""
                    (Some (VDict [("result", VDict [("code", VInt 418);
                                                    ("message", VNone)])]))))
                 me))
    = Some (Printed "[Ghasedak] 418 Client Error: None").
Proof.
  refine (proj2 (proj2 (proj2 (proj2 (client_error_gives_sentinel
    (mock (mkResponse 200 "OK" ""
       (Some (VDict [("result", VDict [("code", VInt 418); ("message", VNone)])]))))
    me (VDict [("result", VDict [("code", VInt 418); ("message", VNone)])]) 418 VNone
    (VStr "hello") (VStr "98912345678") VNone VNone VNone (VStr "7") (VStr "1234")
    (VStr "login") CHECK_ID TEXT [] _ _ _ _))))).
  - intros rq. eexists. split; reflexivity.
  - reflexivity.
  - reflexivity.
  - lia.
Defined.

(** X10.  For every code that is an integer other than 200 outside 400 to
    499, a string such as "402", [null], a boolean, a list or a dict, the
    handler of each operation fails in [str] of the exception and the
    operation raises [TypeError].  These are all the codes of the model
    other than 200 and the integers from 400 to 499; a floating-point code,
    which Python compares like a number, is not among them. *)
Theorem other_code_raises_TypeError (request : Request → result Response)
    (self : Ghasedak) (env c m : value)
    (message receptor linenumber senddate checkid id otp template : value)
    (kind : MessageIDType) (type : MessageType) (params : list (string * value)) :
  answers request env →
  result_code env = Ok c →
  result_message env = Ok m →
  code_without_text c = true →
  outcome (sendMessage request self message receptor linenumber senddate checkid)
    = Raise TypeError ∧
  outcome (sendOtpVerification request self otp receptor template type checkid params)
    = Raise TypeError ∧
  outcome (getSMSStatus request self id kind) = Raise TypeError ∧
  outcome (getAccountInfo request self) = Raise TypeError.
Proof.
  intros Hans Hcode Hmsg Hkind.
  assert (eq_int c 200 = false) as Hne.
  { destruct c as [|b|n|s|l|d]; simpl in *; try done.
    - by destruct b.
    - apply andb_true_iff in Hkind as [Hkind _]. by apply negb_true_iff. }
  pose proof (λ endpoint data method,
    makeRequest_failure request self endpoint data method env _ _ Hans Hcode Hne Hmsg)
    as Hfail.
  assert (str_ApiException (mkApiException c m) = Raise TypeError) as Hstr.
  { unfold str_ApiException, ApiException_str; simpl.
    destruct c as [|b|n|s|l|d]; simpl in *; try done.
    - by destruct b.
    - apply andb_true_iff in Hkind as [_ Hkind]. apply negb_true_iff in Hkind.
      destruct (400 <=? n); [|done]. simpl in Hkind. by rewrite Hkind. }
  unfold sendMessage, sendOtpVerification, getSMSStatus, getAccountInfo. cbv zeta.
  repeat split; by rewrite guarded_outcome, Hfail, Hstr.
Qed.

Lemma other_code_raises_TypeError_witness :
  outcome (sendMessage
             (mock (mkResponse 200 "OK" ""
                (Some (VDict [("result", VDict [("code", VStr "402");
                                                ("message", VStr "Insufficient credit")])]))))
             me (VStr "hello") (VStr "98912345678") VNone VNone VNone)
    = Raise TypeError.
Proof.
  refine (proj1 (other_code_raises_TypeError
    (mock (mkResponse 200 "OK" ""
       (Some (VDict [("result", VDict [("code", VStr "402");
                                       ("message", VStr "Insufficient credit")])]))))
    me
    (VDict [("result", VDict [("code", VStr "402"); ("message", VStr "Insufficient credit")])])
    (VStr "402") (VStr "Insufficient credit")
    (VStr "hello") (VStr "98912345678") VNone VNone VNone (VStr "7") (VStr "1234")
    (VStr "login") CHECK_ID TEXT [] _ _ _ _)).
  - intros rq. eexists. split; reflexivity.
  - reflexivity.
  - reflexivity.
  - reflexivity.
Defined.

(** X18.  A call that succeeds on a response whose status is not from 400 to
    599 prints nothing: all that each operation does to the outside is to
    send its one request. *)
Theorem successful_call_prints_nothing (request : Request → result Response)
    (self : Ghasedak) (body : option value) (items : value)
    (message receptor linenumber senddate checkid id otp template : value)
    (kind : MessageIDType) (type : MessageType) (params : list (string * value)) :
  responds request body →
  accepted_status request →
  checked_envelope body = Ok items →
  trace (sendMessage request self message receptor linenumber senddate checkid)
    = [Sent (request_of self "POST" "/sms/send/simple"
               (sendMessage_data message receptor linenumber senddate checkid))] ∧
  trace (sendOtpVerification request self otp receptor template type checkid params)
    = [Sent (request_of self "POST" "/verification/send/simple"
               (sendOtpVerification_data otp receptor template type checkid params))] ∧
  trace (getSMSStatus request self id kind)
    = [Sent (request_of self "GET" "/sms/status" (getSMSStatus_data id kind))] ∧
  trace (getAccountInfo request self)
    = [Sent (request_of self "POST" "/account/info" ∅)].
Proof.
  intros Hres Hstatus Hbody.
  assert (∀ endpoint data method,
            trace (makeRequest request self endpoint data method)
            = [Sent (request_of self method endpoint (default ∅ data))]) as Hquiet.
  { intros endpoint data method.
    destruct (Hres (request_of self method endpoint (default ∅ data)))
      as (response & Hrq & _).
    pose proof (Hstatus _ _ Hrq) as Hacc.
    unfold makeRequest, request_of in *. cbv zeta.
    rewrite trace_bind, outcome_bind, trace_bind; simpl. rewrite Hrq.
    unfold raise_for_status.
    replace ((400 <=? status_code response) && (status_code response <? 500))
      with false by (symmetry; apply andb_false_iff; lia).
    replace ((500 <=? status_code response) && (status_code response <? 600))
      with false by (symmetry; apply andb_false_iff; lia).
    simpl. by rewrite makeRequest_rest_silent. }
  pose proof (λ endpoint data method,
    eq_trans (makeRequest_responded request self endpoint data method body Hres) Hbody)
    as Hok.
  unfold sendMessage, sendOtpVerification, getSMSStatus, getAccountInfo. cbv zeta.
  repeat split; by rewrite (guarded_trace_returned _ _ _ items (Hok _ _ _)), Hquiet.
Qed.

Lemma successful_call_prints_nothing_witness :
  trace (getAccountInfo (mock (mkResponse 200 "OK" "" (Some two_items))) me)
    = [Sent (request_of me "POST" "/account/info" ∅)].
Proof.
  refine (proj2 (proj2 (proj2 (successful_call_prints_nothing
    (mock (mkResponse 200 "OK" "" (Some two_items))) me (Some two_items)
    (VList [VStr "x"; VStr "42"])
    (VStr "hello") (VStr "98912345678") VNone VNone VNone (VStr "7") (VStr "1234")
    (VStr "login") CHECK_ID TEXT [] _ _ _)))).
  - intros rq. eexists. split; reflexivity.
  - intros rq response [= <-]. simpl. lia.
  - reflexivity.
Defined.

(** ** Further properties: the translation of statuses *)

Lemma dict_get_set_other (k k' : string) (v : value) (d : list (string * value)) :
  k' ≠ k → dict_get k' (dict_set k v d) = dict_get k' d.
Proof.
  intros Hne. induction d as [|[k0 v0] d IH]; simpl.
  - destruct (String.eqb_spec k' k); [done|done].
  - destruct (String.eqb_spec k k0) as [->|Hk]; simpl.
    + by destruct (String.eqb_spec k' k0).
    + by rewrite IH.
Qed.

Lemma dict_set_keys (k : string) (v v0 : value) (d : list (string * value)) :
  dict_get k d = Some v0 → map fst (dict_set k v d) = map fst d.
Proof.
  induction d as [|[k1 v1] d IH]; simpl; [done|].
  destruct (String.eqb_spec k k1) as [->|Hk]; simpl; [done|].
  intros Hget. by rewrite IH.
Qed.

Lemma Statuses_unknown (n : Z) : ¬ (0 ≤ n ≤ 6) → Statuses !! n = None.
Proof.
  intros Hn. unfold Statuses. apply not_elem_of_list_to_map_1. simpl.
  rewrite !elem_of_cons, elem_of_nil. lia.
Qed.

Lemma translate_status_same (item out : value) :
  translate_status item = Ok out → same_but_status item out.
Proof.
  unfold translate_status. destruct item as [| | | | |d]; try done. simpl.
  destruct (dict_get "status" d) as [status|] eqn:Hget; [|done].
  destruct (Statuses_get status) as [text|]; [|done]. simpl.
  intros [= <-]. exists d, (dict_set "status" text d). repeat split.
  - by eapply dict_set_keys.
  - intros k Hk. by apply dict_get_set_other.
Qed.

Lemma for_each_translate_same (items out : list value) :
  for_each translate_status items = Ok out → Forall2 same_but_status items out.
Proof.
  revert out. induction items as [|item items IH]; intros out; simpl.
  - intros [= <-]. constructor.
  - destruct (translate_status item) as [o|] eqn:Ho; [|done].
    destruct (for_each translate_status items) as [rest|]; [|done].
    intros [= <-]. constructor; [by apply translate_status_same|by apply IH].
Qed.

(** X11.  When every entry of [items] is a dict with an integer [status],
    [getSMSStatus] raises nothing; an entry whose status is from 0 to 6 comes
    back with a text of the table, and one whose status is any other integer
    comes back with the status [None]. *)
Theorem getSMSStatus_unknown_status_is_None (request : Request → result Response)
    (self : Ghasedak) (id : value) (type : MessageIDType) (body : option value)
    (items : list value) :
  responds request body →
  checked_envelope body = Ok (VList items) →
  Forall (λ item, ∃ n, status_entry item n) items →
  ∃ out,
    outcome (getSMSStatus request self id type) = Ok (VList out) ∧
    Forall2 (λ item o, ∃ n, status_entry item n ∧
                            (0 ≤ n ≤ 6 → status_is_text o) ∧
                            (¬ (0 ≤ n ≤ 6) → getitem_str o "status" = Ok VNone))
      items out.
Proof.
  intros Hres Hbody Hentries.
  assert (∃ out, for_each translate_status items = Ok out ∧
            Forall2 (λ item o, ∃ n, status_entry item n ∧
                                    (0 ≤ n ≤ 6 → status_is_text o) ∧
                                    (¬ (0 ≤ n ≤ 6) → getitem_str o "status" = Ok VNone))
              items out) as (out & Hout & Hall).
  { clear Hbody.
    induction Hentries as [|item items (n & d & -> & Hget) _ (out & Hout & Hall)].
    - exists []. by split; [|constructor].
    - exists (VDict (dict_set "status" (from_option VStr VNone (Statuses !! n)) d) :: out).
      split.
      + assert (translate_status (VDict d)
                = Ok (VDict (dict_set "status" (from_option VStr VNone (Statuses !! n)) d)))
          as Hitem by (unfold translate_status; simpl; by rewrite Hget).
        simpl for_each. by rewrite Hitem, Hout.
      + constructor; [|done]. exists n. split; [by exists d|]. split.
        * intros Hn. destruct (Statuses_total n Hn) as [text Htab].
          exists n, text. repeat split; try done; try lia.
          simpl. by rewrite dict_get_set, Htab.
        * intros Hn. simpl. by rewrite dict_get_set, (Statuses_unknown n Hn). }
  exists out. split; [|done].
  unfold getSMSStatus. cbv zeta.
  rewrite guarded_outcome, (makeRequest_responded _ _ _ _ _ body Hres), Hbody.
  unfold lift, translate_statuses; simpl. by rewrite Hout.
Qed.

Lemma getSMSStatus_unknown_status_is_None_witness :
  ∃ out,
    outcome (getSMSStatus
               (mock (mkResponse 200 "OK" ""
                  (Some (VDict [("result", VDict [("code", VInt 200)]);
                                ("items", VList [VDict [("status", VInt 9)]])]))))
               me (VStr "7") CHECK_ID) = Ok (VList out) ∧
    Forall2 (λ item o, ∃ n, status_entry item n ∧
                            (0 ≤ n ≤ 6 → status_is_text o) ∧
                            (¬ (0 ≤ n ≤ 6) → getitem_str o "status" = Ok VNone))
      [VDict [("status", VInt 9)]] out.
Proof.
  apply (getSMSStatus_unknown_status_is_None
    (mock (mkResponse 200 "OK" ""
       (Some (VDict [("result", VDict [("code", VInt 200)]);
                     ("items", VList [VDict [("status", VInt 9)]])]))))
    me (VStr "7") CHECK_ID
    (Some (VDict [("result", VDict [("code", VInt 200)]);
                  ("items", VList [VDict [("status", VInt 9)]])]))
    [VDict [("status", VInt 9)]]).
  - intros rq. eexists. split; reflexivity.
  - reflexivity.
  - constructor; [|constructor]. exists 9. eexists. split; reflexivity.
Defined.

(** X12.  Whenever [getSMSStatus] returns on a list of entries, it returns a
    list of as many dicts, in the same order, each with the keys of its entry
    in their order and with the value of every key but [status] unchanged. *)
Theorem getSMSStatus_keeps_other_fields (request : Request → result Response)
    (self : Ghasedak) (id : value) (type : MessageIDType) (body : option value)
    (items : list value) (returned : value) :
  responds request body →
  checked_envelope body = Ok (VList items) →
  outcome (getSMSStatus request self id type) = Ok returned →
  ∃ out, returned = VList out ∧
         length out = length items ∧
         Forall2 same_but_status items out.
Proof.
  intros Hres Hbody. unfold getSMSStatus. cbv zeta.
  rewrite guarded_outcome, (makeRequest_responded _ _ _ _ _ body Hres), Hbody.
  unfold lift, translate_statuses; simpl.
  destruct (for_each translate_status items) as [out|] eqn:Hout; [|done].
  intros [= <-]. exists out.
  pose proof (for_each_translate_same _ _ Hout) as Hall.
  split; [done|]. split; [|done]. symmetry. by eapply Forall2_length.
Qed.

Lemma getSMSStatus_keeps_other_fields_witness :
  ∃ out,
    VList [VDict [("messageid", VInt 7); ("status", VStr "Receptor is in Blacklist")]]
      = VList out ∧
    length out = length [VDict [("messageid", VInt 7); ("status", VInt 5)]] ∧
    Forall2 same_but_status [VDict [("messageid", VInt 7); ("status", VInt 5)]] out.
Proof.
  apply (getSMSStatus_keeps_other_fields
    (mock (mkResponse 200 "OK" ""
       (Some (VDict [("result", VDict [("code", VInt 200)]);
                     ("items", VList [VDict [("messageid", VInt 7);
                                             ("status", VInt 5)]])]))))
    me (VStr "7") MESSAGE_ID
    (Some (VDict [("result", VDict [("code", VInt 200)]);
                  ("items", VList [VDict [("messageid", VInt 7); ("status", VInt 5)]])]))
    [VDict [("messageid", VInt 7); ("status", VInt 5)]]).
  - intros rq. eexists. split; reflexivity.
  - reflexivity.
  - reflexivity.
Defined.

(** X13.  When the entries of [items] are dicts and one of them has no
    [status], [getSMSStatus] raises [KeyError] for that key, provided the
    statuses that are there can be looked up in the table, that is, are no
    lists or dicts. *)
Theorem getSMSStatus_missing_status (request : Request → result Response)
    (self : Ghasedak) (id : value) (type : MessageIDType) (body : option value)
    (items : list value) :
  responds request body →
  checked_envelope body = Ok (VList items) →
  Forall (λ item, ∃ d, item = VDict d ∧
                       ∀ v, dict_get "status" d = Some v → hashable v = true) items →
  Exists (λ item, ∃ d, item = VDict d ∧ dict_get "status" d = None) items →
  outcome (getSMSStatus request self id type) = Raise (KeyError (VStr "status")).
Proof.
  intros Hres Hbody Hdicts Hmissing.
  assert (for_each translate_status items = Raise (KeyError (VStr "status"))) as Hraise.
  { clear Hbody.
    induction Hdicts as [|item items (d & -> & Hhash) _ IH]; [by inversion Hmissing|].
    simpl for_each.
    destruct (dict_get "status" d) as [status|] eqn:Hget.
    - assert (∃ text, Statuses_get status = Ok text) as [text Htext].
      { specialize (Hhash _ eq_refl). destruct status; try done; by eexists. }
      assert (translate_status (VDict d) = Ok (VDict (dict_set "status" text d))) as ->
        by (unfold translate_status; simpl; by rewrite Hget, Htext).
      rewrite IH; [done|].
      apply Exists_cons in Hmissing as [(d' & [= <-] & Hnone)|Hrest]; [congruence|done].
    - assert (translate_status (VDict d) = Raise (KeyError (VStr "status"))) as ->
        by (unfold translate_status; simpl; by rewrite Hget).
      done. }
  unfold getSMSStatus. cbv zeta.
  rewrite guarded_outcome, (makeRequest_responded _ _ _ _ _ body Hres), Hbody.
  unfold lift, translate_statuses; simpl. by rewrite Hraise.
Qed.

Lemma getSMSStatus_missing_status_witness :
  outcome (getSMSStatus
             (mock (mkResponse 200 "OK" ""
                (Some (VDict [("result", VDict [("code", VInt 200)]);
                              ("items", VList [VDict [("status", VInt 1)];
                                               VDict [("messageid", VInt 7)]])]))))
             me (VStr "7") CHECK_ID)
    = Raise (KeyError (VStr "status")).
Proof.
  refine (getSMSStatus_missing_status
    (mock (mkResponse 200 "OK" ""
       (Some (VDict [("result", VDict [("code", VInt 200)]);
                     ("items", VList [VDict [("status", VInt 1)];
                                      VDict [("messageid", VInt 7)]])]))))
    me (VStr "7") CHECK_ID
    (Some (VDict [("result", VDict [("code", VInt 200)]);
                  ("items", VList [VDict [("status", VInt 1)];
                                   VDict [("messageid", VInt 7)]])]))
    [VDict [("status", VInt 1)]; VDict [("messageid", VInt 7)]] _ _ _ _).
  - intros rq. eexists. split; reflexivity.
  - reflexivity.
  - constructor; [|constructor; [|constructor]].
    + eexists. split; [reflexivity|]. by intros v [= <-].
    + eexists. split; [reflexivity|]. by intros v [=].
  - apply Exists_cons_tl, Exists_cons_hd. eexists. split; reflexivity.
Defined.

(** ** Further properties: what goes on the wire *)

Lemma foldl_insert_bound (params : list (string * value)) (data : gmap string value)
    (k : string) (v : value) :
  NoDup params.*1 →
  (k, v) ∈ params →
  foldl (λ data pv, <[fst pv := VStr (str (snd pv))]> data) data params !! k
  = Some (VStr (str v)).
Proof.
  revert data. induction params as [|[k0 v0] params IH]; intros data Hnd Hin; simpl.
  - by apply elem_of_nil in Hin.
  - rewrite fmap_cons in Hnd. apply NoDup_cons in Hnd as [Hfresh Hnd].
    apply elem_of_cons in Hin as [[= -> ->]|Hin].
    + rewrite foldl_insert_untouched by done. simpl. by rewrite lookup_insert_eq.
    + by apply IH.
Qed.

(** X14.  A client made by [__init__] sends every request to the fixed base
    URL followed by the path of the operation, by POST except for
    [getSMSStatus], which uses GET, and always with the same four headers,
    the API key among them; [getAccountInfo] sends no parameters. *)
Theorem requests_on_the_wire (request : Request → result Response) (key : string)
    (message receptor linenumber senddate checkid id otp template : value)
    (kind : MessageIDType) (type : MessageType) (params : list (string * value)) :
  let hs : gmap string string :=
    {[ "Accept" := "application/json";
       "Content-Type" := "application/x-www-form-urlencoded";
       "charset" := "utf-8";
       "apikey" := key ]} in
  sent (trace (sendMessage request (init key) message receptor linenumber senddate checkid))
    = [mkRequest "POST" "https://api.ghasedak.io/v2/sms/send/simple"
         (sendMessage_data message receptor linenumber senddate checkid) hs] ∧
  sent (trace (sendOtpVerification request (init key) otp receptor template type
                 checkid params))
    = [mkRequest "POST" "https://api.ghasedak.io/v2/verification/send/simple"
         (sendOtpVerification_data otp receptor template type checkid params) hs] ∧
  sent (trace (getSMSStatus request (init key) id kind))
    = [mkRequest "GET" "https://api.ghasedak.io/v2/sms/status"
         (getSMSStatus_data id kind) hs] ∧
  sent (trace (getAccountInfo request (init key)))
    = [mkRequest "POST" "https://api.ghasedak.io/v2/account/info" ∅ hs] ∧
  dom hs = ({[ "Accept"; "Content-Type"; "charset"; "apikey" ]} : gset string) ∧
  hs !! "apikey" = Some key.
Proof.
  intros hs.
  assert (headers (init key) = hs) as Hhs.
  { apply map_eq. intros k. unfold headers, hs. simpl.
    repeat (rewrite ?lookup_insert, ?lookup_singleton, ?lookup_empty;
            case_decide; subst; try done). }
  rewrite sent_sendMessage, sent_sendOtpVerification, sent_getSMSStatus,
    sent_getAccountInfo, Hhs.
  by repeat split.
Qed.

(** X15.  [sendMessage] always sends [message] and [receptor], and sends
    [linenumber], [senddate] and [checkid] exactly when the argument is not
    [None], each as [str] of the argument; it sends no other key. *)
Theorem sendMessage_optional_parameters (request : Request → result Response)
    (self : Ghasedak) (message receptor linenumber senddate checkid : value) :
  ∃ rq,
    sent (trace (sendMessage request self message receptor linenumber senddate checkid))
      = [rq] ∧
    rq_data rq !! "message" = Some (VStr (str message)) ∧
    rq_data rq !! "receptor" = Some (VStr (str receptor)) ∧
    rq_data rq !! "linenumber"
      = (if is_not_None linenumber then Some (VStr (str linenumber)) else None) ∧
    rq_data rq !! "senddate"
      = (if is_not_None senddate then Some (VStr (str senddate)) else None) ∧
    rq_data rq !! "checkid"
      = (if is_not_None checkid then Some (VStr (str checkid)) else None) ∧
    dom (rq_data rq)
      ⊆ ({[ "message"; "receptor"; "linenumber"; "senddate"; "checkid" ]} : gset string).
Proof.
  eexists. split; [apply sent_sendMessage|].
  unfold sendMessage_data; simpl.
  destruct (is_not_None linenumber), (is_not_None senddate), (is_not_None checkid);
    (repeat split; [done..|]); rewrite ?dom_insert_L, dom_empty_L;
    repeat (apply union_least; [apply singleton_subseteq_l; set_unfold; tauto|]);
    apply empty_subseteq.
Qed.

(** X16.  Every extra keyword parameter of [sendOtpVerification] other than
    [param1] is sent under its own name as [str] of its value.  (The keys of
    the keyword arguments of a call are distinct.) *)
Theorem sendOtpVerification_extra_parameters (request : Request → result Response)
    (self : Ghasedak) (otp receptor template : value) (type : MessageType)
    (checkid : value) (params : list (string * value)) (k : string) (v : value) :
  NoDup params.*1 →
  (k, v) ∈ params →
  k ≠ "param1" →
  ∃ rq,
    sent (trace (sendOtpVerification request self otp receptor template type
                   checkid params)) = [rq] ∧
    rq_data rq !! k = Some (VStr (str v)).
Proof.
  intros Hnd Hin Hk. eexists. split; [apply sent_sendOtpVerification|].
  unfold sendOtpVerification_data; simpl.
  rewrite lookup_insert_ne by done. by apply foldl_insert_bound.
Qed.

Lemma sendOtpVerification_extra_parameters_witness :
  ∃ rq,
    sent (trace (sendOtpVerification (mock (mkResponse 200 "OK" "" (Some two_items))) me
                   (VStr "1234") (VStr "98912345678") (VStr "login") TEXT VNone
                   [("param1", VStr "0000"); ("param2", VInt 5)])) = [rq] ∧
    rq_data rq !! "param2" = Some (VStr "5").
Proof.
  apply (sendOtpVerification_extra_parameters
    (mock (mkResponse 200 "OK" "" (Some two_items))) me
    (VStr "1234") (VStr "98912345678") (VStr "login") TEXT VNone
    [("param1", VStr "0000"); ("param2", VInt 5)] "param2" (VInt 5)).
  - simpl. apply NoDup_cons. split; [|apply NoDup_singleton].
    intros Hin. apply list_elem_of_singleton in Hin. discriminate Hin.
  - apply list_elem_of_further, list_elem_of_here.
  - discriminate.
Defined.

(** X17.  The named parameters of [sendOtpVerification] are sent as
    [receptor], [template] and [type], the last being the integer of the
    message type (1 for TEXT, 2 for VOICE), and [checkid] is sent exactly when
    it is not [None].  (The extra keyword arguments of a call cannot bear the
    name of a named parameter.) *)
Theorem sendOtpVerification_named_parameters (request : Request → result Response)
    (self : Ghasedak) (otp receptor template : value) (type : MessageType)
    (checkid : value) (params : list (string * value)) :
  Forall (λ k, k ∉ params.*1) ["receptor"; "template"; "type"; "checkid"] →
  ∃ rq,
    sent (trace (sendOtpVerification request self otp receptor template type
                   checkid params)) = [rq] ∧
    rq_data rq !! "receptor" = Some (VStr (str receptor)) ∧
    rq_data rq !! "template" = Some (VStr (str template)) ∧
    rq_data rq !! "type" = Some (VInt (match type with TEXT => 1 | VOICE => 2 end)) ∧
    rq_data rq !! "checkid"
      = (if is_not_None checkid then Some (VStr (str checkid)) else None).
Proof.
  intros Hkeys.
  apply Forall_cons in Hkeys as [Hreceptor Hkeys].
  apply Forall_cons in Hkeys as [Htemplate Hkeys].
  apply Forall_cons in Hkeys as [Htype Hkeys].
  apply Forall_cons in Hkeys as [Hcheckid _].
  eexists. split; [apply sent_sendOtpVerification|].
  unfold sendOtpVerification_data; simpl.
  rewrite !lookup_insert_ne by done.
  rewrite !foldl_insert_untouched by done.
  destruct type, (is_not_None checkid); by repeat split.
Qed.

Lemma sendOtpVerification_named_parameters_witness :
  ∃ rq,
    sent (trace (sendOtpVerification (mock (mkResponse 200 "OK" "" (Some two_items))) me
                   (VStr "1234") (VStr "98912345678") (VStr "login") VOICE (VInt 77)
                   [("param2", VStr "x")])) = [rq] ∧
    rq_data rq !! "receptor" = Some (VStr "98912345678") ∧
    rq_data rq !! "template" = Some (VStr "login") ∧
    rq_data rq !! "type" = Some (VInt 2) ∧
    rq_data rq !! "checkid" = Some (VStr "77").
Proof.
  apply (sendOtpVerification_named_parameters
    (mock (mkResponse 200 "OK" "" (Some two_items))) me
    (VStr "1234") (VStr "98912345678") (VStr "login") VOICE (VInt 77)
    [("param2", VStr "x")]).
  repeat constructor; simpl; intros Hin; apply list_elem_of_singleton in Hin;
    discriminate Hin.
Defined.

(** X19.  [getSMSStatus] sends exactly the two parameters [id] and [type]:
    [id] is [str] of the argument, so a string of ids joined by commas goes
    out as it is, and [type] is 1 for MESSAGE_ID and 2 for CHECK_ID. *)
Theorem getSMSStatus_parameters (request : Request → result Response)
    (self : Ghasedak) (id : value) (type : MessageIDType) :
  (∃ rq,
     sent (trace (getSMSStatus request self id type)) = [rq] ∧
     rq_data rq !! "id" = Some (VStr (str id)) ∧
     rq_data rq !! "type"
       = Some (VInt (match type with MESSAGE_ID => 1 | CHECK_ID => 2 end)) ∧
     dom (rq_data rq) = ({[ "id"; "type" ]} : gset string)) ∧
  (∀ ids : string,
     ∃ rq,
       sent (trace (getSMSStatus request self (VStr ids) type)) = [rq] ∧
       rq_data rq !! "id" = Some (VStr ids)).
Proof.
  split; [|intros ids]; (eexists; split; [apply sent_getSMSStatus|]).
  - unfold getSMSStatus_data; simpl.
    split; [by rewrite lookup_insert_ne|].
    split; [rewrite lookup_insert_eq; by destruct type|].
    rewrite !dom_insert_L, dom_empty_L.
    apply set_eq. intros x. set_unfold. tauto.
  - unfold getSMSStatus_data; simpl. by rewrite lookup_insert_ne.
Qed.

(** X20.  On an answer with code 200 whose [items] is no list, [getSMSStatus]
    raises [TypeError], be [items] [null], a boolean, an integer, a non-empty
    dict or a non-empty string; only the empty dict and the empty string pass
    the loop. *)
Theorem getSMSStatus_items_not_a_list (request : Request → result Response)
    (self : Ghasedak) (id : value) (type : MessageIDType) (body : option value)
    (items : value) :
  responds request body →
  checked_envelope body = Ok items →
  (∀ l, items ≠ VList l) →
  items ≠ VDict [] →
  items ≠ VStr "" →
  outcome (getSMSStatus request self id type) = Raise TypeError.
Proof.
  intros Hres Hbody Hlist Hdict Hstr.
  unfold getSMSStatus. cbv zeta.
  rewrite guarded_outcome, (makeRequest_responded _ _ _ _ _ body Hres), Hbody.
  unfold lift, translate_statuses; simpl.
  destruct items as [| | |s|l|d]; simpl; try done.
  - by destruct s.
  - by destruct (Hlist l).
  - by destruct d.
Qed.

Lemma getSMSStatus_items_not_a_list_witness :
  outcome (getSMSStatus
             (mock (mkResponse 200 "OK" ""
                (Some (VDict [("result", VDict [("code", VInt 200)]);
                              ("items", VDict [("status", VInt 1)])]))))
             me (VStr "7") CHECK_ID)
    = Raise TypeError.
Proof.
  refine (getSMSStatus_items_not_a_list
    (mock (mkResponse 200 "OK" ""
       (Some (VDict [("result", VDict [("code", VInt 200)]);
                     ("items", VDict [("status", VInt 1)])]))))
    me (VStr "7") CHECK_ID
    (Some (VDict [("result", VDict [("code", VInt 200)]);
                  ("items", VDict [("status", VInt 1)])]))
    (VDict [("status", VInt 1)]) _ _ _ _ _).
  - intros rq. eexists. split; reflexivity.
  - reflexivity.
  - discriminate.
  - discriminate.
  - discriminate.
Defined.
